(** * genor-agents: the regex classification cascade and the fan-out executor

    A shallow embedding of
      - [genor_agents/classification/regex/regex_binary_classifier_agent.py]
      - [genor_agents/classification/regex/regex_multilabel_classifier_agent.py]
      - [genor_agents/classification/regex/regex_multiclass_classifier_agent.py]
      - [genor_agents/agent.py]
    Python values that the code inspects at run time ([isinstance]) are kept
    dynamically typed ([pyval]); exceptions are an error monad ([result]);
    methods that receive [self] are state passing over the object's
    attributes ([method]); Python's [re] module is an interface ([ReModule])
    with one small instance for the metacharacter-free fragment. *)

From Stdlib Require Import ZArith String Ascii Lia.
From stdpp Require Import base option numbers list strings gmap sorting pretty.

Set Warnings "-register-all,-clear-no-such-hyp".
Local Open Scope string_scope.
Local Open Scope Z_scope.

(** ** Exceptions and the error monad *)

Inductive exn : Type :=
  | ValueError (msg : string)
  | TypeError
  | re_error.

Inductive result (A : Type) : Type :=
  | Ok (a : A)
  | Raise (e : exn).
Arguments Ok {A} a.
Arguments Raise {A} e.

#[global] Instance result_ret : MRet result := @Ok.
#[global] Instance result_bind : MBind result := fun A B f m =>
  match m with
  | Ok a => f a
  | Raise e => Raise e
  end.

(** A method of an object whose attributes are [S]: it runs on [self],
    returns or raises, and leaves the object in some state. *)
Definition method (S A : Type) : Type := S -> result A * S.

#[global] Instance method_ret {S} : MRet (method S) := fun A a self => (Ok a, self).
#[global] Instance method_bind {S} : MBind (method S) := fun A B f m self =>
  match m self with
  | (Ok a, self') => f a self'
  | (Raise e, self') => (Raise e, self')
  end.

(** [self.f] *)
Definition attr {S A} (f : S -> A) : method S A := fun self => (Ok (f self), self).
(** a computation that does not touch [self] *)
Definition lift {S A} (r : result A) : method S A := fun self => (r, self).

(** ** Python values *)

(** Hashable scalars, as dictionary keys. *)
Inductive pykey : Type :=
  | KNone
  | KInt (z : Z)
  | KStr (s : string).

#[global] Instance pykey_eq_dec : EqDecision pykey.
Proof. solve_decision. Defined.

Inductive pyval : Type :=
  | VNone
  | VInt (z : Z)
  | VStr (s : string)
  | VList (l : list pyval)
  | VTuple (l : list pyval)
  | VDict (d : list (pykey * pyval)).

(** [isinstance(v, str)], [isinstance(v, list)], [isinstance(v, dict)] *)
Definition isinstance_str (v : pyval) : bool :=
  match v with VStr _ => true | _ => false end.
Definition isinstance_list (v : pyval) : bool :=
  match v with VList _ => true | _ => false end.
Definition isinstance_dict (v : pyval) : bool :=
  match v with VDict _ => true | _ => false end.

(** A [dict] keeps insertion order: an association list without repeated
    keys.  [d[k] = v] replaces in place or appends. *)
Fixpoint dict_set {K V} `{EqDecision K} (d : list (K * V)) (k : K) (v : V) : list (K * V) :=
  match d with
  | [] => [(k, v)]
  | (k', v') :: d' =>
      if decide (k' = k) then (k, v) :: d' else (k', v') :: dict_set d' k v
  end.

Definition dict_keys {K V} (d : list (K * V)) : list K := d.*1.
Definition dict_values {K V} (d : list (K * V)) : list V := d.*2.

Fixpoint dict_get {K V} `{EqDecision K} (d : list (K * V)) (k : K) : option V :=
  match d with
  | [] => None
  | (k', v') :: d' => if decide (k' = k) then Some v' else dict_get d' k
  end.

(** ** Strings *)

(** [len(s)] *)
Definition len (s : string) : Z := Z.of_nat (String.length s).

(** [s[a:b]], with Python's treatment of negative and out-of-range bounds. *)
Definition slice_index (n i : Z) : Z :=
  if i <? 0 then Z.max (i + n) 0 else Z.min i n.

Definition py_slice (s : string) (a b : Z) : string :=
  let lo := slice_index (len s) a in
  let hi := slice_index (len s) b in
  substring (Z.to_nat lo) (Z.to_nat (hi - lo)) s.

(** [sep.join(l)]: raises [TypeError] at an item that is not a [str]. *)
Fixpoint str_join (sep : string) (l : list pyval) : result string :=
  match l with
  | [] => Ok ""
  | VStr s :: rest =>
      match rest with
      | [] => Ok s
      | _ => r ← str_join sep rest; Ok (s +:+ sep +:+ r)
      end
  | _ :: _ => Raise TypeError
  end.

(** ** The interface of Python's [re] module

    [re.finditer(p, s)] and [re.search(p, s)] compile [p] (raising
    [re.error] on a malformed pattern) and run the compiled pattern. *)
Class ReModule : Type := {
  Pattern : Type;
  re_compile : string -> result Pattern;
  (** the spans [(start, end)] of [Pattern.finditer], in iteration order *)
  Pattern_finditer : Pattern -> string -> list (Z * Z);
  (** whether [Pattern.search] returns a match *)
  Pattern_search : Pattern -> string -> bool;
}.

Definition re_finditer `{ReModule} (pattern data : string) : result (list (Z * Z)) :=
  p ← re_compile pattern; Ok (Pattern_finditer p data).

Definition re_search `{ReModule} (pattern data : string) : result bool :=
  p ← re_compile pattern; Ok (Pattern_search p data).

(** ** [RegexBinaryClassifierAgent] *)

Module RegexBinaryClassifierAgent.

(** The attributes set by [__init__]. *)
Record t : Type := {
  regex_pattern : string;
  unwanted_regex_patterns : string;
  context_range : option Z;
  relevant_match : string;
}.

Definition InvalidPatternType : exn :=
  ValueError "Invalid regex pattern type. It should be a string or a list of strings.".

Definition _process_regex_patterns (regex_patterns : pyval) : result string :=
  match regex_patterns with
  | VStr s => Ok s
  | VList l => str_join "|" l
  | _ => Raise InvalidPatternType
  end.

Definition __init__ (regex_patterns unwanted_regex_patterns : pyval)
    (context_range : option Z) (relevant_match : string) : result t :=
  rp ← _process_regex_patterns regex_patterns;
  up ← _process_regex_patterns unwanted_regex_patterns;
  Ok {| regex_pattern := rp; unwanted_regex_patterns := up;
        context_range := context_range; relevant_match := relevant_match |}.

(** The keyword arguments of a construction; an absent one takes the
    default of the signature. *)
Record kwargs : Type := {
  kw_regex_patterns : pyval;
  kw_unwanted_regex_patterns : option pyval;
  kw_context_range : option (option Z);
  kw_relevant_match : option string;
}.

Definition construct (kw : kwargs) : result t :=
  __init__ (kw_regex_patterns kw)
           (default (VList []) (kw_unwanted_regex_patterns kw))
           (default None (kw_context_range kw))
           (default "any" (kw_relevant_match kw)).

Definition context_span (context_range : option Z) (data : string) (start end_ : Z) : Z * Z :=
  match context_range with
  | None => (0, len data)
  | Some r => (Z.max 0 (start - r), Z.min (len data) (end_ + r))
  end.

Definition context_text (context_range : option Z) (data : string) (start end_ : Z) : string :=
  let span := context_span context_range data start end_ in
  py_slice data span.1 span.2.

(** truth value of a [str] *)
Definition truthy (s : string) : bool := negb (String.eqb s "").

Section WithRe.
Context `{ReModule}.

(** The body of [for match in re.finditer(...)], on the spans still to
    come; [curr_res] is the variable of that name. *)
Fixpoint loop (data : string) (matches : list (Z * Z)) (curr_res : bool) : method t bool :=
  match matches with
  | [] => mret curr_res
  | (start, end_) :: rest =>
      let curr_res := true in
      range ← attr context_range;
      let text := context_text range data start end_ in
      unwanted ← attr unwanted_regex_patterns;
      found ← (if truthy unwanted then lift (re_search unwanted text) else mret false);
      let curr_res := if found : bool then false else curr_res in
      relevant ← attr relevant_match;
      if String.eqb relevant "any" then
        if curr_res then mret true else loop data rest curr_res
      else if String.eqb relevant "first" then mret curr_res
      else loop data rest curr_res
  end.

Definition __call__ (data : string) : method t bool :=
  pattern ← attr regex_pattern;
  matches ← lift (re_finditer pattern data);
  loop data matches false.

End WithRe.

End RegexBinaryClassifierAgent.

(** ** [RegexMultiLabelClassifierAgent] *)

Module RegexMultiLabelClassifierAgent.

(** The one attribute: a [dict] from label to its classifier object. *)
Record t : Type := {
  regex_binary_classifier_per_label : list (string * RegexBinaryClassifierAgent.t);
}.

(** The [for] loop of [_get_label_to_regex_binary_classifier_mapping];
    the accumulator is the dictionary under construction. *)
Fixpoint build (items : list (string * RegexBinaryClassifierAgent.kwargs))
    (regex_binary_classifier_per_label : list (string * RegexBinaryClassifierAgent.t))
    : result (list (string * RegexBinaryClassifierAgent.t)) :=
  match items with
  | [] => Ok regex_binary_classifier_per_label
  | (label, regex_binary_classifier_kwargs) :: rest =>
      agent ← RegexBinaryClassifierAgent.construct regex_binary_classifier_kwargs;
      build rest (dict_set regex_binary_classifier_per_label label agent)
  end.

Definition _get_label_to_regex_binary_classifier_mapping
    (regex_binary_classifier_kwargs_per_label : list (string * RegexBinaryClassifierAgent.kwargs))
    : result (list (string * RegexBinaryClassifierAgent.t)) :=
  build regex_binary_classifier_kwargs_per_label [].

Definition __init__
    (regex_binary_classifier_kwargs_per_label : list (string * RegexBinaryClassifierAgent.kwargs))
    : result t :=
  m ← _get_label_to_regex_binary_classifier_mapping regex_binary_classifier_kwargs_per_label;
  Ok {| regex_binary_classifier_per_label := m |}.

Section WithRe.
Context `{ReModule}.

(** The [for] loop of [__call__] over the items still to come.  Each
    classifier is an object held by the dictionary: the state it is left
    in is the one the dictionary holds afterwards. *)
Fixpoint call_items (data : string) (items : list (string * RegexBinaryClassifierAgent.t))
    (labels : list string) : result (list string) * list (string * RegexBinaryClassifierAgent.t) :=
  match items with
  | [] => (Ok labels, [])
  | (label, regex_binary_classifier) :: rest =>
      match RegexBinaryClassifierAgent.__call__ data regex_binary_classifier with
      | (Raise e, classifier') => (Raise e, (label, classifier') :: rest)
      | (Ok res, classifier') =>
          let labels := if res : bool then (labels ++ [label])%list else labels in
          let '(out, rest') := call_items data rest labels in
          (out, (label, classifier') :: rest')
      end
  end.

Definition __call__ (data : string) : method t (list string) := fun self =>
  let '(out, items') := call_items data (regex_binary_classifier_per_label self) [] in
  (out, {| regex_binary_classifier_per_label := items' |}).

End WithRe.

End RegexMultiLabelClassifierAgent.

(** ** [RegexMultiClassClassifierAgent] *)

Module RegexMultiClassClassifierAgent.

Record t : Type := {
  regex_multilabel_classifier : RegexMultiLabelClassifierAgent.t;
  classes_priorities : list string;
}.

(** [classes_priorities=None] takes the keys of the configuration (after a
    logged warning, which is not modelled). *)
Definition __init__
    (regex_binary_classifier_kwargs_per_class : list (string * RegexBinaryClassifierAgent.kwargs))
    (classes_priorities : option (list string)) : result t :=
  ml ← RegexMultiLabelClassifierAgent.__init__ regex_binary_classifier_kwargs_per_class;
  Ok {| regex_multilabel_classifier := ml;
        classes_priorities :=
          match classes_priorities with
          | None => dict_keys regex_binary_classifier_kwargs_per_class
          | Some l => l
          end |}.

(** [x in l] on a list of strings *)
Fixpoint py_in (x : string) (l : list string) : bool :=
  match l with
  | [] => false
  | y :: l' => String.eqb y x || py_in x l'
  end.

(** [for class_ in self.classes_priorities: ...; return None] *)
Fixpoint first_class (priorities multi_label_res : list string) : option string :=
  match priorities with
  | [] => None
  | class_ :: rest =>
      if py_in class_ multi_label_res then Some class_
      else first_class rest multi_label_res
  end.

Section WithRe.
Context `{ReModule}.

(** the call of the object held in [self.regex_multilabel_classifier] *)
Definition call_multilabel (data : string) : method t (list string) := fun self =>
  let '(out, ml') := RegexMultiLabelClassifierAgent.__call__ data (regex_multilabel_classifier self) in
  (out, {| regex_multilabel_classifier := ml'; classes_priorities := classes_priorities self |}).

Definition __call__ (data : string) : method t (option string) :=
  multi_label_res ← call_multilabel data;
  priorities ← attr classes_priorities;
  mret (first_class priorities multi_label_res).

End WithRe.

End RegexMultiClassClassifierAgent.

(** ** [MultiInputsAgentExecuter] *)

Module MultiInputsAgentExecuter.

(** An agent object, as the executor calls it, with the unpacked [value]. *)
Definition agent_object : Type := list (string * pyval) -> result pyval.

(** [self.agent] is the class returned by [load_agent]; calling it with
    keyword arguments builds the agent object. *)
Record t : Type := {
  agent : list (string * pyval) -> result agent_object;
}.

Definition InvalidInputType : exn :=
  ValueError "Invalid inputs type. Inputs must be either a dictionary or a list.".

(** What the executor does that is visible from outside, in order. *)
Inductive event : Type :=
  | Construct (kwargs : list (string * pyval))
  | Submit (key : pykey) (value : list (string * pyval)).

(** [**value]: [value] has to be a mapping with [str] keys. *)
Fixpoint str_keys (d : list (pykey * pyval)) : result (list (string * pyval)) :=
  match d with
  | [] => Ok []
  | (KStr s, v) :: d' => r ← str_keys d'; Ok ((s, v) :: r)
  | _ :: _ => Raise TypeError
  end.

Definition star_star (value : pyval) : result (list (string * pyval)) :=
  match value with
  | VDict d => str_keys d
  | _ => Raise TypeError
  end.

(** [{k: v for k, v in items}] *)
Definition dict_of_items {K V} `{EqDecision K} (items : list (K * V)) : list (K * V) :=
  foldl (fun d kv => dict_set d kv.1 kv.2) [] items.

(** [enumerate(l)] *)
Definition enumerate (l : list pyval) : list (pykey * pyval) :=
  imap (fun i v => (KInt (Z.of_nat i), v)) l.

(** [inputs.items()] *)
Definition items (inputs : pyval) : list (pykey * pyval) :=
  match inputs with
  | VDict d => d
  | _ => []
  end.

(** A submitted task: what [future.result()] will give, and the key that
    [future_to_key] binds to the future. *)
Definition future : Type := result pyval * pykey.

(** The comprehension that submits one task per item.  A [value] that
    cannot be unpacked raises there; the tasks submitted before it stay
    submitted. *)
Fixpoint submit_all (agent : agent_object) (inputs_items : list (pykey * pyval))
    : result (list future) * list event :=
  match inputs_items with
  | [] => (Ok [], [])
  | (key, value) :: rest =>
      match star_star value with
      | Raise e => (Raise e, [])
      | Ok kw =>
          let '(out, trace) := submit_all agent rest in
          (futures ← out; Ok ((agent kw, key) :: futures), Submit key kw :: trace)
      end
  end.

(** [concurrent.futures.as_completed]: the futures in the order in which
    the workers finish them.  The order is not determined by the program;
    [order] picks, at each step, which of the pending futures is next. *)
Fixpoint completions {A} (n : nat) (order : list nat) (pending : list A) : list A :=
  match n with
  | O => []
  | S n' =>
      let i := (hd 0 order mod length pending)%nat in
      match pending !! i with
      | Some f => f :: completions n' (tl order) (delete i pending)
      | None => []
      end
  end.

Definition as_completed {A} (order : list nat) (pending : list A) : list A :=
  completions (length pending) order pending.

(** [for future in as_completed(...): results[key] = future.result()] *)
Fixpoint collect (completed : list future) (results : list (pykey * pyval))
    : result (list (pykey * pyval)) :=
  match completed with
  | [] => Ok results
  | (outcome, key) :: rest =>
      r ← outcome; collect rest (dict_set results key r)
  end.

Definition __call__ (self : t) (order : list nat) (inputs : pyval)
    (kwargs : list (string * pyval)) : result pyval * list event :=
  if isinstance_dict inputs || isinstance_list inputs then
    let inputs :=
      match inputs with
      | VList l => VDict (dict_of_items (enumerate l))
      | _ => inputs
      end in
    let results := [] in
    match agent self kwargs with
    | Raise e => (Raise e, [Construct kwargs])
    | Ok agent =>
        let '(submitted, trace) := submit_all agent (items inputs) in
        let out :=
          future_to_key ← submitted;
          results ← collect (as_completed order future_to_key) results;
          Ok (if isinstance_list inputs then VList (dict_values results)
              else VDict results) in
        (out, Construct kwargs :: trace)
    end
  else (Raise InvalidInputType, []).

(** [rs] associates each key of [d] to what the agent returns on its value. *)
Definition returns (a : agent_object) (d rs : list (pykey * pyval)) : Prop :=
  Forall2 (fun kv kr => kr.1 = kv.1 /\ exists kw, star_star kv.2 = Ok kw /\ a kw = Ok kr.2) d rs.

(** The agent of the executor's test: it returns the [index] it is given;
    and five argument sets for it. *)
Definition index_agent : t := {|
  agent := fun _ => Ok (fun kw =>
    match dict_get kw "index" with
    | Some v => Ok v
    | None => Raise TypeError
    end);
|}.

Definition five_inputs : pyval :=
  VList ((fun i => VDict [(KStr "index", VInt i)]) <$> [0; 1; 2; 3; 4]).

End MultiInputsAgentExecuter.

(** ** An instance of [ReModule]: patterns without metacharacters

    A pattern of this fragment is a [|]-separated list of literal
    alternatives.  At each position the alternatives are tried in order;
    right after an empty match, an empty match at the same position is not
    taken again.  Patterns with other metacharacters are outside the
    fragment and are refused. *)

Module LiteralRe.

Definition is_special (c : ascii) : bool :=
  existsb (Ascii.eqb c) (list_ascii_of_string ".^$*+?{}[]\()").

Fixpoint has_special (s : string) : bool :=
  match s with
  | EmptyString => false
  | String c s' => is_special c || has_special s'
  end.

Fixpoint alternatives (s : string) : list string :=
  match s with
  | EmptyString => [EmptyString]
  | String c s' =>
      if Ascii.eqb c "|" then EmptyString :: alternatives s'
      else match alternatives s' with
           | a :: alts => String c a :: alts
           | [] => [String c EmptyString]
           end
  end.

Definition compile (pattern : string) : result (list string) :=
  if has_special pattern then Raise re_error else Ok (alternatives pattern).

(** the length of the first alternative that matches at the head of [s] *)
Fixpoint match_at (alts : list string) (must_advance : bool) (s : string) : option nat :=
  match alts with
  | [] => None
  | a :: alts' =>
      if String.prefix a s && negb (must_advance && Nat.eqb (String.length a) 0)
      then Some (String.length a)
      else match_at alts' must_advance s
  end.

(** the leftmost match in [s], which is the text from position [pos] on *)
Fixpoint search_from (alts : list string) (must_advance : bool) (pos : nat) (s : string)
    : option (nat * nat) :=
  match match_at alts must_advance s with
  | Some k => Some (pos, (pos + k)%nat)
  | None =>
      match s with
      | EmptyString => None
      | String _ s' => search_from alts false (S pos) s'
      end
  end.

Fixpoint drop_chars (n : nat) (s : string) : string :=
  match n, s with
  | S n', String _ s' => drop_chars n' s'
  | _, _ => s
  end.

Fixpoint scan (fuel : nat) (alts : list string) (must_advance : bool) (pos : nat) (s : string)
    : list (Z * Z) :=
  match fuel with
  | O => []
  | S fuel' =>
      match search_from alts must_advance pos s with
      | None => []
      | Some (start, end_) =>
          (Z.of_nat start, Z.of_nat end_)
            :: scan fuel' alts (Nat.eqb start end_) end_ (drop_chars (end_ - pos) s)
      end
  end.

(** No position carries more than two matches, so the fuel suffices. *)
Definition finditer (alts : list string) (data : string) : list (Z * Z) :=
  scan (2 * String.length data + 3) alts false 0 data.

Definition search (alts : list string) (data : string) : bool :=
  match search_from alts false 0 data with
  | Some _ => true
  | None => false
  end.

Definition re : ReModule := {|
  Pattern := list string;
  re_compile := compile;
  Pattern_finditer := finditer;
  Pattern_search := search;
|}.

End LiteralRe.

(** ** The Binary Pattern Matcher as the specification words it *)

Module Reference.

Inductive MatchPolicy : Type := any | first | last.

Definition policy_name (p : MatchPolicy) : string :=
  match p with
  | any => "any"
  | first => "first"
  | last => "last"
  end.

(** Context Window: the whole text, or the characters of the range
    [max(0, start - r), min(len(text), end + r)). *)
Definition ContextWindow (radius : option Z) (text : string) (span : Z * Z) : string :=
  match radius with
  | None => text
  | Some r =>
      let lo := Z.max 0 (span.1 - r) in
      let hi := Z.min (len text) (span.2 + r) in
      substring (Z.to_nat lo) (Z.to_nat (hi - lo)) text
  end.

(** Pattern Set: a single pattern or a sequence of patterns, as the value
    given to the constructor and as the expression it stands for. *)
Definition patterns_value (p : string + list string) : pyval :=
  match p with
  | inl s => VStr s
  | inr ps => VList (VStr <$> ps)
  end.

Definition patterns_expression (p : string + list string) : string :=
  match p with
  | inl s => s
  | inr ps => String.concat "|" ps
  end.

(** Match Span: a half-open range of text positions. *)
Definition span_in (text : string) (span : Z * Z) : Prop :=
  0 <= span.1 <= span.2 /\ span.2 <= len text.

(** The policy on the outcomes of the occurrences, in order; [b] is the
    answer for no occurrence. *)
Definition reduce (policy : MatchPolicy) (b : bool) (outcomes : list bool) : bool :=
  match policy with
  | any => match outcomes with [] => b | _ => existsb id outcomes end
  | first => hd b outcomes
  | last => List.last outcomes b
  end.

Section WithRe.
Context `{ReModule}.

(** An occurrence is qualified iff no exclusion expression is configured
    or the configured one does not match inside the Context Window. *)
Definition qualified (exclusion : option Pattern) (radius : option Z) (text : string)
    (span : Z * Z) : bool :=
  match exclusion with
  | None => true
  | Some ex => negb (Pattern_search ex (ContextWindow radius text span))
  end.

Definition evaluate (policy : MatchPolicy) (inclusion : Pattern) (exclusion : option Pattern)
    (radius : option Z) (text : string) : bool :=
  let outcomes := qualified exclusion radius text <$> Pattern_finditer inclusion text in
  match policy with
  | any => existsb id outcomes
  | first => hd false outcomes
  | last => List.last outcomes false
  end.

(** The exclusion expression of a matcher: configured when the joined
    expression is not empty. *)
Definition exclusion_of (unwanted : string) (exclusion : option Pattern) : Prop :=
  match exclusion with
  | None => unwanted = ""
  | Some ex => unwanted <> "" /\ re_compile unwanted = Ok ex
  end.

End WithRe.

End Reference.

(** ** Configurations of the specification's examples *)

Module Fixtures.

(** inclusion [great], exclusion [bad] within four characters *)
Definition great_not_bad (relevant_match : string) : RegexBinaryClassifierAgent.t := {|
  RegexBinaryClassifierAgent.regex_pattern := "great";
  RegexBinaryClassifierAgent.unwanted_regex_patterns := "bad";
  RegexBinaryClassifierAgent.context_range := Some 4;
  RegexBinaryClassifierAgent.relevant_match := relevant_match;
|}.

(** inclusion [great], exclusion [bad] in the whole text *)
Definition great_not_bad_anywhere : RegexBinaryClassifierAgent.t := {|
  RegexBinaryClassifierAgent.regex_pattern := "great";
  RegexBinaryClassifierAgent.unwanted_regex_patterns := "bad";
  RegexBinaryClassifierAgent.context_range := None;
  RegexBinaryClassifierAgent.relevant_match := "any";
|}.

Definition only_patterns (regex_patterns : pyval) : RegexBinaryClassifierAgent.kwargs := {|
  RegexBinaryClassifierAgent.kw_regex_patterns := regex_patterns;
  RegexBinaryClassifierAgent.kw_unwanted_regex_patterns := None;
  RegexBinaryClassifierAgent.kw_context_range := None;
  RegexBinaryClassifierAgent.kw_relevant_match := None;
|}.

Definition sentiment_kwargs : list (string * RegexBinaryClassifierAgent.kwargs) :=
  [("positive", only_patterns (VList [VStr "good"; VStr "great"; VStr "excellent"]));
   ("negative", only_patterns (VList [VStr "bad"; VStr "poor"; VStr "terrible"]));
   ("neutral", only_patterns (VStr "ok"))].

Definition plain (regex_pattern : string) : RegexBinaryClassifierAgent.t := {|
  RegexBinaryClassifierAgent.regex_pattern := regex_pattern;
  RegexBinaryClassifierAgent.unwanted_regex_patterns := "";
  RegexBinaryClassifierAgent.context_range := None;
  RegexBinaryClassifierAgent.relevant_match := "any";
|}.

Definition sentiment_multilabel : RegexMultiLabelClassifierAgent.t := {|
  RegexMultiLabelClassifierAgent.regex_binary_classifier_per_label :=
    [("positive", plain "good|great|excellent");
     ("negative", plain "bad|poor|terrible");
     ("neutral", plain "ok")];
|}.

Definition sentiment_multiclass : RegexMultiClassClassifierAgent.t := {|
  RegexMultiClassClassifierAgent.regex_multilabel_classifier := sentiment_multilabel;
  RegexMultiClassClassifierAgent.classes_priorities := ["negative"; "positive"; "neutral"];
|}.

End Fixtures.

(** ** Exceptions of the other modules

    [InvalidDataScheme] is defined in [genor_agents.exception_handling],
    which is not among the sources: it is taken as an exception class that
    carries its message. *)

Inductive exception : Type :=
  | Builtin (e : exn)
  | ModuleNotFoundError (name : string)
  | AttributeError (msg : string)
  | FileNotFoundError (msg : string)
  | InvalidDataScheme (msg : string).

Inductive outcome (A : Type) : Type :=
  | Return (a : A)
  | Throw (e : exception).
Arguments Return {A} a.
Arguments Throw {A} e.

#[global] Instance outcome_ret : MRet outcome := @Return.
#[global] Instance outcome_bind : MBind outcome := fun A B f m =>
  match m with
  | Return a => f a
  | Throw e => Throw e
  end.

(** ** [load_agent] and the constructor of the executor *)

Module agent_loader.

(** The import machinery, as [load_agent] uses it:
    [importlib.import_module] and [getattr] on a module. *)
Class Importlib (module object : Type) : Type := {
  import_module : string -> outcome module;
  getattr : module -> string -> outcome object;
}.

(** [s.rsplit(".", 1)] when [s] has a dot: the text before the last dot and
    the text after it. *)
Fixpoint rsplit_dot (s : string) : option (string * string) :=
  match s with
  | EmptyString => None
  | String c s' =>
      match rsplit_dot s' with
      | Some (before, after) => Some (String c before, after)
      | None => if Ascii.eqb c "." then Some (EmptyString, s') else None
      end
  end.

(** [s.rsplit(".", 1)] *)
Definition rsplit1 (s : string) : list string :=
  match rsplit_dot s with
  | Some (before, after) => [before; after]
  | None => [s]
  end.

(** [module_name, class_name = ...] *)
Definition unpack2 (l : list string) : outcome (string * string) :=
  match l with
  | [module_name; class_name] => Return (module_name, class_name)
  | [] | [_] =>
      Throw (Builtin (ValueError
        ("not enough values to unpack (expected 2, got " +:+ pretty (length l) +:+ ")")))
  | _ => Throw (Builtin (ValueError "too many values to unpack (expected 2)"))
  end.

Definition load_agent `{Importlib module object} (agent_path : string) : outcome object :=
  '(module_name, class_name) ← unpack2 (rsplit1 agent_path);
  module ← import_module module_name;
  cls ← getattr module class_name;
  Return cls.

(** whether [s] has no dot *)
Fixpoint dot_free (s : string) : bool :=
  match s with
  | EmptyString => true
  | String c s' => negb (Ascii.eqb c ".") && dot_free s'
  end.

(** [MultiInputsAgentExecuter.__init__]: the class found at the path is what
    is constructed, once, at each call. *)
Definition MultiInputsAgentExecuter__init__
    `{Importlib module (list (string * pyval) -> result MultiInputsAgentExecuter.agent_object)}
    (agent_path_to_execute : string) : outcome MultiInputsAgentExecuter.t :=
  agent ← load_agent agent_path_to_execute;
  Return {| MultiInputsAgentExecuter.agent := agent |}.

(** An import machinery given by a table of modules, each a table of its
    attributes. *)
Definition table_importlib {object : Type} (modules : gmap string (gmap string object))
    : Importlib (gmap string object) object := {|
  import_module name :=
    match modules !! name with
    | Some m => Return m
    | None => Throw (ModuleNotFoundError ("No module named '" +:+ name +:+ "'"))
    end;
  getattr m name :=
    match m !! name with
    | Some o => Return o
    | None => Throw (AttributeError ("module has no attribute '" +:+ name +:+ "'"))
    end;
|}.

End agent_loader.

(** ** [PDFOCRAgent] *)

Module PDFOCRAgent.

(** [sorted(set(p for p in pages if 1 <= p <= total_pages))] *)
Definition valid_pages (pages : list Z) (total_pages : Z) : list Z :=
  merge_sort Z.le
    (elements (list_to_set (filter (fun p => 1 <= p <= total_pages) pages) : gset Z)).

(** the two f-strings that close a range *)
Definition format_range (range_start range_end : Z) : string :=
  if range_start =? range_end then pretty range_start
  else pretty range_start +:+ "-" +:+ pretty range_end.

(** The [for] loop over the pages that follow the first one, and the
    closing of the last range after it. *)
Fixpoint format_loop (rest : list Z) (range_start range_end : Z)
    (formatted_pages : list string) : list string :=
  match rest with
  | [] => formatted_pages ++ [format_range range_start range_end]
  | page :: rest' =>
      if page =? range_end + 1 then format_loop rest' range_start page formatted_pages
      else format_loop rest' page page
             (formatted_pages ++ [format_range range_start range_end])
  end.

Definition _format_pages (pages : list Z) (total_pages : Z) : string :=
  match valid_pages pages total_pages with
  | [] => ""
  | first_page :: rest => String.concat "," (format_loop rest first_page first_page [])
  end.

(** What the document analysis service returns, as far as the agent reads
    it: the text, and per page its number and the text of its lines. *)
Record DocumentPage : Type := {
  page_number : Z;
  lines : list string;
}.

Record AnalyzeResult : Type := {
  content : string;
  pages : list DocumentPage;
}.

Record Metadata : Type := {
  total_pages : Z;
  pages_analyzed : list Z;
}.

Record Output : Type := {
  metadata : Metadata;
  raw_ocr_result : AnalyzeResult;
  output_content : string;
  pages_content : list (Z * string);
}.

(** [s.replace('\n', ' ')] *)
Fixpoint replace_newlines (s : string) : string :=
  match s with
  | EmptyString => EmptyString
  | String c s' =>
      String (if Ascii.eqb c "010" then " "%char else c) (replace_newlines s')
  end.

(** [result] is [None] when [_analyze_document] fell out of its loop. *)
Definition _construct_output (result : option AnalyzeResult) (total_pages : Z)
    (pages : list Z) : outcome Output :=
  let pages_analyzed :=
    match pages with
    | [] => seqZ 1 (total_pages + 1 - 1)
    | _ => pages
    end in
  match result with
  | None => Throw (AttributeError "'NoneType' object has no attribute 'content'")
  | Some result =>
      Return {|
        metadata := {| total_pages := total_pages; pages_analyzed := pages_analyzed |};
        raw_ocr_result := result;
        output_content := replace_newlines (content result);
        pages_content :=
          MultiInputsAgentExecuter.dict_of_items
            ((fun page => (page_number page, String.concat " " (lines page)))
               <$> PDFOCRAgent.pages result);
      |}
  end.

(** What the agent does to the outside, in order (logging apart). *)
Inductive event : Type :=
  | Analyze (model_id : string) (document : string) (pages : string)
  | Sleep (seconds : Z).

(** the number of requests to the service, and the seconds slept *)
Fixpoint requests (trace : list event) : nat :=
  match trace with
  | [] => 0
  | Analyze _ _ _ :: trace' => S (requests trace')
  | Sleep _ :: trace' => requests trace'
  end.

Fixpoint slept (trace : list event) : Z :=
  match trace with
  | [] => 0
  | Analyze _ _ _ :: trace' => slept trace'
  | Sleep seconds :: trace' => seconds + slept trace'
  end.

Section WithService.
(** The exceptions of the service; the answer of the service to its [n]-th
    request; and the file system, which gives the bytes and the page count of
    a readable PDF. *)
Context {E : Type}.
Variable responses : nat -> E + AnalyzeResult.
Variable read_pdf : string -> outcome (string * Z).

Record t : Type := {
  model_name : string;
  max_attempts : Z;
}.

(** How [_analyze_document] ends: [return result], the end of the function
    after the loop, or the [raise] of the last attempt. *)
Inductive analysis : Type :=
  | Returned (result : AnalyzeResult)
  | ReturnedNone
  | Raised (e : E).

(** The [while] loop; [fuel] bounds the iterations, and [None] is the lack of
    fuel. *)
Fixpoint attempts (fuel : nat) (self : t) (pdf_bytes pages_str : string) (attempt : Z)
    : option (analysis * list event) :=
  if attempt <? max_attempts self then
    match fuel with
    | O => None
    | S fuel' =>
        let request := Analyze (model_name self) pdf_bytes pages_str in
        match responses (Z.to_nat attempt) with
        | inr result => Some (Returned result, [request])
        | inl e =>
            let attempt := attempt + 1 in
            if attempt <? max_attempts self then
              '(out, trace) ← attempts fuel' self pdf_bytes pages_str attempt;
              Some (out, request :: Sleep 5 :: trace)
            else Some (Raised e, [request])
        end
    end
  else Some (ReturnedNone, []).

Definition _analyze_document (self : t) (pdf_bytes pages_str : string)
    : option (analysis * list event) :=
  attempts (Z.to_nat (max_attempts self)) self pdf_bytes pages_str 0.

(** How a call ends: the output, an exception of the agent, or the
    exception of the service re-raised by the last attempt. *)
Inductive call_result : Type :=
  | Done (output : Output)
  | Failed (e : exception)
  | ServiceFailed (e : E).

Definition __call__ (self : t) (pdf_path : string) (pages : list Z)
    : option (call_result * list event) :=
  match read_pdf pdf_path with
  | Throw e => Some (Failed e, [])
  | Return (pdf_bytes, total_pages) =>
      let pages_str := _format_pages pages total_pages in
      '(result, trace) ← _analyze_document self pdf_bytes pages_str;
      match result with
      | Raised e => Some (ServiceFailed e, trace)
      | Returned result =>
          match _construct_output (Some result) total_pages pages with
          | Return output => Some (Done output, trace)
          | Throw e => Some (Failed e, trace)
          end
      | ReturnedNone =>
          match _construct_output None total_pages pages with
          | Return output => Some (Done output, trace)
          | Throw e => Some (Failed e, trace)
          end
      end
  end.

End WithService.

End PDFOCRAgent.

(** ** [LLM] and [LLMFactory] *)

Module llm_factory.

(** A subclass of [LLM], as the factory uses it: the models it supports
    and its constructor, called with the model name and the keyword
    arguments. *)
Record llm_class (I : Type) : Type := {
  supported_models : list string;
  init : string -> list (string * pyval) -> outcome I;
}.
Arguments supported_models {I} _.
Arguments init {I} _ _ _.

(** [LLM.__init_subclass__], run when the subclass [cls] is defined, on the
    class attribute [LLM._registry]. *)
Definition __init_subclass__ {I} (cls : llm_class I) (_registry : gmap string (llm_class I))
    : gmap string (llm_class I) :=
  foldl (fun registry model_name => <[model_name := cls]> registry) _registry
        (supported_models cls).

Definition create_llm {I} (_registry : gmap string (llm_class I)) (model_name : string)
    (kwargs : list (string * pyval)) : outcome I :=
  match _registry !! model_name with
  | Some llm_class => init llm_class model_name kwargs
  | None =>
      Throw (Builtin (ValueError
        ("Model " +:+ model_name +:+ " is not supported by the factory")))
  end.

End llm_factory.

(** ** [KVPLLMAgent]: the fields of an information scheme *)

Module KVPLLMAgent.

Definition _get_required_attributes : list string := ["name"; "description"; "type"].
Definition _get_optional_attributes : list string := ["format"; "source"; "gt_name"].

(** [for value in current_dict.values(): ...], with the inner function of
    [_get_fields_dicts] for the recursive call; the list that the loop
    appends to is its result. *)
Fixpoint values_loop (recursive_extraction : pyval -> list (list (pykey * pyval)))
    (current_dict items : list (pykey * pyval)) : list (list (pykey * pyval)) :=
  match items with
  | [] => []
  | (_, value) :: rest =>
      if isinstance_dict value
      then (recursive_extraction value
            ++ values_loop recursive_extraction current_dict rest)%list
      else [current_dict]
  end.

Fixpoint _recursive_extraction (current_dict : pyval) : list (list (pykey * pyval)) :=
  match current_dict with
  | VDict d => values_loop _recursive_extraction d d
  | _ => []
  end.

(** [information_scheme.values()] needs a dictionary. *)
Definition _get_fields_dicts (information_scheme : pyval)
    : outcome (list (list (pykey * pyval))) :=
  if isinstance_dict information_scheme
  then Return (_recursive_extraction information_scheme)
  else Throw (AttributeError "object has no attribute 'values'").

(** [for attribute in self.required_attributes: ...] on one field *)
Fixpoint check_attributes (required_attributes : list string) (fld_dict : list (pykey * pyval))
    : outcome unit :=
  match required_attributes with
  | [] => Return ()
  | attribute :: rest =>
      match dict_get fld_dict (KStr attribute) with
      | None =>
          Throw (InvalidDataScheme
            ("Missing '" +:+ attribute +:+ "' attribute for one of the fields"))
      | Some _ => check_attributes rest fld_dict
      end
  end.

(** [for fld_dict in fields_dicts: ...] *)
Fixpoint check_fields (required_attributes : list string)
    (fields_dicts : list (list (pykey * pyval))) : outcome unit :=
  match fields_dicts with
  | [] => Return ()
  | fld_dict :: rest =>
      _ ← check_attributes required_attributes fld_dict;
      check_fields required_attributes rest
  end.

Definition _validate_information_scheme (information_scheme : pyval)
    (required_attributes : list string) : outcome unit :=
  fields_dicts ← _get_fields_dicts information_scheme;
  check_fields required_attributes fields_dicts.

End KVPLLMAgent.

(** ** [KVPZeroShotLLMAgent]: the text that is evaluated *)

Module KVPZeroShotLLMAgent.

(** the first and the last position of a character, if any *)
Fixpoint first_index (c : ascii) (s : string) : option nat :=
  match s with
  | EmptyString => None
  | String c' s' => if Ascii.eqb c' c then Some 0%nat else S <$> first_index c s'
  end.

Fixpoint last_index (c : ascii) (s : string) : option nat :=
  match s with
  | EmptyString => None
  | String c' s' =>
      match last_index c s' with
      | Some i => Some (S i)
      | None => if Ascii.eqb c' c then Some 0%nat else None
      end
  end.

(** [s.find(c)] and [s.rfind(c)] for a one-character [c] *)
Definition str_find (c : ascii) (s : string) : Z :=
  match first_index c s with Some i => Z.of_nat i | None => -1 end.

Definition str_rfind (c : ascii) (s : string) : Z :=
  match last_index c s with Some i => Z.of_nat i | None => -1 end.

(** the local variable [response_dict] *)
Definition response_dict (response : string) : string :=
  let dict_start_idx := str_find "{" response in
  let dict_end_idx := str_rfind "}" response in
  py_slice response dict_start_idx (dict_end_idx + 1).

(** The model and Python's [eval] are given; [generate_text] returns the
    answer of the model stripped of surrounding blanks. *)
Definition __call__ (generate_text : string -> string -> outcome string)
    (eval : string -> outcome pyval) (system_prompt : string) (text : string)
    : outcome pyval :=
  response ← generate_text system_prompt text;
  eval (response_dict response).

(** whether [c] does not occur in [s] *)
Fixpoint lacks (c : ascii) (s : string) : bool :=
  match s with
  | EmptyString => true
  | String c' s' => negb (Ascii.eqb c' c) && lacks c s'
  end.

End KVPZeroShotLLMAgent.

(** ** Further configurations for the properties at concrete inputs *)

Module MoreFixtures.

(** inclusion [great] with the given exclusion, context range and policy *)
Definition matcher (unwanted : string) (range : option Z) (relevant : string)
    : RegexBinaryClassifierAgent.t := {|
  RegexBinaryClassifierAgent.regex_pattern := "great";
  RegexBinaryClassifierAgent.unwanted_regex_patterns := unwanted;
  RegexBinaryClassifierAgent.context_range := range;
  RegexBinaryClassifierAgent.relevant_match := relevant;
|}.

(** a classifier whose second label has a malformed pattern *)
Definition broken_multilabel : RegexMultiLabelClassifierAgent.t := {|
  RegexMultiLabelClassifierAgent.regex_binary_classifier_per_label :=
    [("positive", Fixtures.plain "good"); ("broken", Fixtures.plain "(")];
|}.

(** the resolver built from [Fixtures.sentiment_kwargs] without priorities *)
Definition default_multiclass : RegexMultiClassClassifierAgent.t := {|
  RegexMultiClassClassifierAgent.regex_multilabel_classifier := Fixtures.sentiment_multilabel;
  RegexMultiClassClassifierAgent.classes_priorities := ["positive"; "negative"; "neutral"];
|}.

(** the agent object that [MultiInputsAgentExecuter.index_agent] constructs *)
Definition index_of : MultiInputsAgentExecuter.agent_object := fun kw =>
  match dict_get kw "index" with
  | Some v => Ok v
  | None => Raise TypeError
  end.

Definition two_inputs : list (pykey * pyval) :=
  [(KStr "a", VDict [(KStr "index", VInt 7)]); (KStr "b", VDict [(KStr "index", VInt 8)])].

(** the second task fails: its argument set has no [index] *)
Definition failing_inputs : list (pykey * pyval) :=
  [(KStr "a", VDict [(KStr "index", VInt 7)]); (KStr "b", VDict [])].

Definition ocr_agent : PDFOCRAgent.t := {|
  PDFOCRAgent.model_name := "prebuilt-document";
  PDFOCRAgent.max_attempts := 3;
|}.

Definition one_page : PDFOCRAgent.AnalyzeResult := {|
  PDFOCRAgent.content := "page one";
  PDFOCRAgent.pages :=
    [{| PDFOCRAgent.page_number := 1; PDFOCRAgent.lines := ["page"; "one"] |}];
|}.

(** a service that fails twice and then answers; one that always fails;
    one that answers at once *)
Definition flaky (i : nat) : string + PDFOCRAgent.AnalyzeResult :=
  if (i <? 2)%nat then inl "timeout" else inr one_page.

Definition down (i : nat) : string + PDFOCRAgent.AnalyzeResult :=
  inl ("failure " +:+ pretty i).

Definition up (i : nat) : string + PDFOCRAgent.AnalyzeResult := inr one_page.

(** every path is a readable PDF of three pages *)
Definition three_pages (pdf_path : string) : outcome (string * Z) := Return ("%PDF", 3).

(** a scheme with one field that has no [type] *)
Definition invoice_field : list (pykey * pyval) :=
  [(KStr "name", VStr "total"); (KStr "description", VStr "the amount due")].

Definition invoice_scheme : list (pykey * pyval) := [(KStr "invoice", VDict invoice_field)].

End MoreFixtures.

(** * Properties *)

(** ** Strings and slices *)

Lemma substring_all (s : string) : substring 0 (String.length s) s = s.
Proof. induction s as [|c s IH]; simpl; [done | by rewrite IH]. Qed.

Lemma length_substring (s : string) (n m : nat) :
  (n + m <= String.length s)%nat -> String.length (substring n m s) = m.
Proof.
  revert n m; induction s as [|c s IH]; intros [|n] [|m]; simpl; intros Hle;
    try reflexivity; try lia.
  - f_equal. apply (IH 0%nat m). lia.
  - apply (IH n 0%nat). lia.
  - apply (IH n (S m)). lia.
Qed.

Lemma len_nonneg (s : string) : 0 <= len s.
Proof. unfold len; lia. Qed.

Lemma slice_index_inside (n i : Z) : 0 <= i <= n -> slice_index n i = i.
Proof. intros Hi. unfold slice_index. destruct (Z.ltb_spec i 0); lia. Qed.

Lemma py_slice_inside (s : string) (a b : Z) :
  0 <= a <= len s -> 0 <= b <= len s ->
  py_slice s a b = substring (Z.to_nat a) (Z.to_nat (b - a)) s.
Proof.
  intros Ha Hb. unfold py_slice. by rewrite !slice_index_inside.
Qed.

(** ** The error and method monads *)

Ltac unfold_method :=
  unfold mbind, mret, method_bind, method_ret, result_bind, result_ret, attr, lift in *.

Lemma last_cons {A} (a d : A) (l : list A) : List.last (a :: l) d = List.last l a.
Proof.
  revert a d; induction l as [|b l IH]; intros a d; [reflexivity|].
  change (List.last (b :: l) d = List.last (b :: l) a).
  by rewrite !IH.
Qed.

(** ** The Binary Pattern Matcher *)

Section BinaryMatcher.
Context `{ReModule}.
Import RegexBinaryClassifierAgent.

Lemma context_text_window (radius : option Z) (data : string) (start end_ : Z) :
  (forall r, radius = Some r -> 0 <= r) ->
  Reference.span_in data (start, end_) ->
  context_text radius data start end_ = Reference.ContextWindow radius data (start, end_).
Proof.
  intros Hr Hspan. unfold context_text, context_span, Reference.ContextWindow.
  destruct radius as [r|]; simpl.
  - specialize (Hr r eq_refl). destruct Hspan; simpl in *. apply py_slice_inside; lia.
  - rewrite py_slice_inside by (pose proof (len_nonneg data); lia).
    unfold len. rewrite Z.sub_0_r, Nat2Z.id. apply substring_all.
Qed.

(** One iteration of the loop: the exclusion expression, when the
    attribute is not empty, is searched in [context_text]; then the
    policy decides. *)
Lemma loop_cons (data : string) (start end_ : Z) (rest : list (Z * Z)) (b : bool) (self : t) :
  loop data ((start, end_) :: rest) b self =
    let text := context_text (context_range self) data start end_ in
    match (if truthy (unwanted_regex_patterns self)
           then re_search (unwanted_regex_patterns self) text else Ok false) with
    | Raise e => (Raise e, self)
    | Ok found =>
        let curr_res := negb found in
        if String.eqb (relevant_match self) "any" then
          if curr_res then (Ok true, self) else loop data rest curr_res self
        else if String.eqb (relevant_match self) "first" then (Ok curr_res, self)
        else loop data rest curr_res self
    end.
Proof.
  cbn [loop]. unfold_method. cbn zeta.
  destruct (truthy (unwanted_regex_patterns self));
    [destruct (re_search _ _) as [[|]|e]|]; try reflexivity;
    cbn [negb];
    (destruct (String.eqb (relevant_match self) "any"); [reflexivity|]);
    destruct (String.eqb (relevant_match self) "first"); reflexivity.
Qed.

(** The call never rebinds an attribute of [self]. *)
Lemma loop_frame (data : string) (matches : list (Z * Z)) (b : bool) (self : t) :
  (loop data matches b self).2 = self.
Proof.
  revert b; induction matches as [|[start end_] rest IH]; intros b; [done|].
  rewrite loop_cons. cbn zeta.
  destruct (if truthy _ then _ else _) as [found|e]; [|done].
  destruct (String.eqb (relevant_match self) "any").
  - destruct (negb found); [done | apply IH].
  - destruct (String.eqb (relevant_match self) "first"); [done | apply IH].
Qed.

Lemma call_frame (data : string) (self : t) : (__call__ data self).2 = self.
Proof.
  unfold __call__. unfold_method.
  destruct (re_compile (regex_pattern self)) as [p|e] eqn:Hp; unfold re_finditer;
    unfold_method; rewrite Hp; [apply loop_frame | done].
Qed.

Lemma loop_reduce (policy : Reference.MatchPolicy) (exclusion : option Pattern)
    (data : string) (self : t) (matches : list (Z * Z)) (b : bool) :
  relevant_match self = Reference.policy_name policy ->
  Reference.exclusion_of (unwanted_regex_patterns self) exclusion ->
  (forall r, context_range self = Some r -> 0 <= r) ->
  Forall (Reference.span_in data) matches ->
  loop data matches b self =
    (Ok (Reference.reduce policy b (Reference.qualified exclusion (context_range self) data <$> matches)),
     self).
Proof.
  intros Hpol Hex Hr Hspans. revert b.
  induction Hspans as [|[start end_] rest Hspan _ IH]; intros b.
  { by destruct policy. }
  rewrite loop_cons. cbn zeta.
  rewrite (context_text_window _ _ _ _ Hr Hspan).
  assert ((if truthy (unwanted_regex_patterns self)
           then re_search (unwanted_regex_patterns self)
                  (Reference.ContextWindow (context_range self) data (start, end_))
           else Ok false)
          = Ok (negb (Reference.qualified exclusion (context_range self) data (start, end_))))
    as ->.
  { destruct exclusion as [ex|]; simpl in Hex |- *.
    - destruct Hex as [Hne Hc]. unfold truthy.
      destruct (String.eqb_spec (unwanted_regex_patterns self) ""); [done|].
      simpl. unfold re_search. unfold_method. rewrite Hc.
      by rewrite negb_involutive.
    - by rewrite Hex. }
  rewrite negb_involutive, Hpol, fmap_cons.
  set (q := Reference.qualified _ _ _ _).
  destruct policy; unfold Reference.reduce, Reference.policy_name;
    simpl (String.eqb _ _); cbn iota.
  - destruct q; [done|]. rewrite IH.
    by destruct (_ <$> rest).
  - done.
  - rewrite IH. by rewrite (last_cons q b).
Qed.

End BinaryMatcher.

Section BinaryMatcherClaims.
Context `{ReModule}.
Import RegexBinaryClassifierAgent.

(** C2. For every text and every configuration (inclusion expression,
    exclusion expression, context radius that is unbounded or not negative,
    match policy), the call of the Binary Pattern Matcher returns what the
    reference algorithm gives: the occurrences of the inclusion expression
    are scanned from left to right; an occurrence is qualified iff no
    exclusion expression is configured or the configured one does not match
    inside the occurrence's context window; [any] is true iff some occurrence
    is qualified, [first] is the qualification of the first occurrence,
    [last] that of the last one, and no occurrence gives false under every
    policy.  The exclusion expression counts as configured when the joined
    expression is not the empty string; the object is left unchanged. *)
Theorem binary_call_refines_reference (policy : Reference.MatchPolicy)
    (inclusion : Pattern) (exclusion : option Pattern) (self : t) (data : string) :
  re_compile (regex_pattern self) = Ok inclusion ->
  Reference.exclusion_of (unwanted_regex_patterns self) exclusion ->
  relevant_match self = Reference.policy_name policy ->
  (forall r, context_range self = Some r -> 0 <= r) ->
  Forall (Reference.span_in data) (Pattern_finditer inclusion data) ->
  __call__ data self =
    (Ok (Reference.evaluate policy inclusion exclusion (context_range self) data), self).
Proof.
  intros Hinc Hex Hpol Hr Hspans.
  unfold __call__, re_finditer. unfold_method. rewrite Hinc.
  rewrite (loop_reduce policy exclusion) by done.
  unfold Reference.evaluate, Reference.reduce.
  destruct policy; try done.
  by destruct (_ <$> _).
Qed.

(** C3. For every match span [start, end) inside the text and every radius
    [r] that is not negative, the text in which the exclusion expression is
    searched is exactly the characters of the range
    [max(0, start - r), min(len(text), end + r)), which lies inside the text
    and contains the span; with the radius [None] it is the whole text. *)
Theorem context_window_exact (data : string) (start end_ r : Z) :
  Reference.span_in data (start, end_) -> 0 <= r ->
  let lo := Z.max 0 (start - r) in
  let hi := Z.min (len data) (end_ + r) in
  let text := context_text (Some r) data start end_ in
  context_span (Some r) data start end_ = (lo, hi)
  /\ (0 <= lo <= start /\ end_ <= hi <= len data)
  /\ len text = hi - lo
  /\ (forall i, 0 <= i < hi - lo ->
        String.get (Z.to_nat i) text = String.get (Z.to_nat (lo + i)) data)
  /\ context_span None data start end_ = (0, len data)
  /\ context_text None data start end_ = data
  /\ (forall (range : option Z) (self : t) (rest : list (Z * Z)) (b : bool) (ex : Pattern),
        context_range self = range ->
        unwanted_regex_patterns self <> "" ->
        re_compile (unwanted_regex_patterns self) = Ok ex ->
        relevant_match self = "first" ->
        loop data ((start, end_) :: rest) b self =
          (Ok (negb (Pattern_search ex (context_text range data start end_))), self)).
Proof.
  intros [[Hs Hse] He] Hr lo hi text. simpl in Hs, Hse, He.
  assert (text = substring (Z.to_nat lo) (Z.to_nat (hi - lo)) data) as Htext.
  { unfold text. rewrite context_text_window; [done| |done].
    by intros ? [= <-]. }
  split; [done|]. split; [lia|].
  split; [|split; [|split; [done|split]]].
  - rewrite Htext. unfold len at 1. rewrite length_substring; [lia|].
    unfold len in *. lia.
  - intros i Hi. rewrite Htext, substring_correct1 by lia.
    f_equal. lia.
  - rewrite context_text_window; [done| |done]. by intros ? [=].
  - intros range self rest b ex Hrange Hne Hc Hfirst.
    rewrite loop_cons. cbn zeta. rewrite Hrange, Hfirst. unfold truthy.
    destruct (String.eqb_spec (unwanted_regex_patterns self) ""); [done|].
    simpl. unfold re_search. unfold_method. by rewrite Hc.
Qed.

End BinaryMatcherClaims.

(** ** Dictionaries *)

Section Dict.
Context {K V : Type} `{EqDecision K}.
Implicit Types (d : list (K * V)) (k : K) (v : V).

Lemma dict_set_keys d k v :
  dict_keys (dict_set d k v) =
    if decide (k ∈ dict_keys d) then dict_keys d else (dict_keys d ++ [k])%list.
Proof.
  unfold dict_keys. induction d as [|[k' v'] d IH].
  - done.
  - cbn [dict_set]. destruct (decide (k' = k)) as [->|Hne]; rewrite !fmap_cons; cbn [fst].
    + rewrite decide_True; [done | left].
    + rewrite IH. destruct (decide (k ∈ d.*1)) as [Hin|Hnin].
      * rewrite decide_True; [done | by right].
      * rewrite decide_False; [done|].
        intros [?|?]%elem_of_cons; congruence.
Qed.

Lemma dict_set_NoDup d k v : NoDup (dict_keys d) -> NoDup (dict_keys (dict_set d k v)).
Proof.
  intros Hd. rewrite dict_set_keys. destruct (decide _) as [|Hnin]; [done|].
  apply NoDup_app. split; [done|]. split; [|apply NoDup_singleton].
  intros x Hx ->%list_elem_of_singleton. done.
Qed.

Lemma dict_get_elem_of d k v :
  NoDup (dict_keys d) -> dict_get d k = Some v <-> (k, v) ∈ d.
Proof.
  unfold dict_keys. induction d as [|[k' v'] d IH]; simpl; intros Hnd.
  - split; [done | by intros ?%elem_of_nil].
  - apply NoDup_cons in Hnd as [Hnin Hnd].
    destruct (decide (k' = k)) as [->|Hne].
    + split.
      * intros [= ->]. left.
      * intros [[= ->]|Hin]%elem_of_cons; [done|].
        destruct Hnin. by apply (list_elem_of_fmap_2 fst _ (k, v)).
    + rewrite IH by done. split; [by right|].
      intros [[= ? ?]|Hin]%elem_of_cons; [congruence | done].
Qed.

Lemma dict_of_items_fresh (l : list (K * V)) :
  NoDup (dict_keys l) -> MultiInputsAgentExecuter.dict_of_items l = l.
Proof.
  unfold MultiInputsAgentExecuter.dict_of_items.
  assert (forall acc, NoDup (dict_keys (acc ++ l)) ->
            foldl (fun d kv => dict_set d kv.1 kv.2) acc l = (acc ++ l)%list) as Hgen.
  { induction l as [|[k v] l IH]; intros acc Hnd; simpl.
    - by rewrite app_nil_r.
    - assert (dict_set acc k v = (acc ++ [(k, v)])%list) as ->.
      { clear IH. unfold dict_keys in Hnd. rewrite fmap_app in Hnd.
        apply NoDup_app in Hnd as (_ & Hdis & _).
        assert (k ∉ acc.*1) as Hk.
        { intros Hin. apply (Hdis k Hin). simpl. left. }
        clear Hdis. induction acc as [|[k' v'] acc IHacc]; simpl; [done|].
        rewrite decide_False.
        - rewrite IHacc; [done|]. intros Hin. apply Hk. simpl. by right.
        - intros ->. apply Hk. simpl. left. }
      rewrite IH; rewrite <- app_assoc; done. }
  intros Hnd. by apply (Hgen []).
Qed.

End Dict.

(** ** The Multi-Label Classifier *)

Section MultiLabel.
Context `{ReModule}.
Import RegexMultiLabelClassifierAgent.

Lemma build_NoDup items acc m :
  build items acc = Ok m -> NoDup (dict_keys acc) -> NoDup (dict_keys m).
Proof.
  revert acc; induction items as [|[label kw] items IH]; intros acc; simpl.
  - by intros [= <-].
  - destruct (RegexBinaryClassifierAgent.construct kw) as [a|e]; [|done].
    simpl. intros Hb Hnd. apply (IH _ Hb). by apply dict_set_NoDup.
Qed.

Lemma build_keys items acc m :
  build items acc = Ok m -> NoDup (dict_keys acc ++ dict_keys items) ->
  dict_keys m = (dict_keys acc ++ dict_keys items)%list.
Proof.
  revert acc; induction items as [|[label kw] items IH]; intros acc; simpl.
  - intros [= <-] _. by rewrite app_nil_r.
  - destruct (RegexBinaryClassifierAgent.construct kw) as [a|e]; [|done].
    simpl. intros Hb Hnd.
    assert (dict_keys (dict_set acc label a) = (dict_keys acc ++ [label])%list) as Hk.
    { rewrite dict_set_keys, decide_False; [done|].
      intros Hin. apply NoDup_app in Hnd as (_ & Hdis & _).
      apply (Hdis _ Hin). left. }
    rewrite (IH _ Hb); rewrite Hk, <- app_assoc; done.
Qed.

Lemma init_NoDup kw self :
  __init__ kw = Ok self -> NoDup (dict_keys (regex_binary_classifier_per_label self)).
Proof.
  unfold __init__, _get_label_to_regex_binary_classifier_mapping.
  destruct (build kw []) as [m|e] eqn:Hb; [|done].
  intros [= <-]. simpl. apply (build_NoDup _ _ _ Hb). constructor.
Qed.

Lemma init_keys kw self :
  __init__ kw = Ok self -> NoDup (dict_keys kw) ->
  dict_keys (regex_binary_classifier_per_label self) = dict_keys kw.
Proof.
  unfold __init__, _get_label_to_regex_binary_classifier_mapping.
  destruct (build kw []) as [m|e] eqn:Hb; [|done].
  intros [= <-] Hnd. simpl. by apply (build_keys _ _ _ Hb).
Qed.

(** The loop leaves every classifier of the dictionary as it was. *)
Lemma call_items_frame data items labels : (call_items data items labels).2 = items.
Proof.
  revert labels; induction items as [|[label c] items IH]; intros labels; [done|].
  cbn [call_items].
  pose proof (call_frame data c) as Hc.
  destruct (RegexBinaryClassifierAgent.__call__ data c) as [[res|e] c']; simpl in Hc; subst c'.
  - specialize (IH (if res then (labels ++ [label])%list else labels)).
    destruct (call_items data items _) as [out rest']. simpl in IH. by subst.
  - done.
Qed.

Lemma multilabel_call_frame data self : (__call__ data self).2 = self.
Proof.
  unfold __call__. pose proof (call_items_frame data (regex_binary_classifier_per_label self) []) as Hf.
  destruct (call_items _ _ _) as [out items']. simpl in *. subst. by destruct self.
Qed.

(** When every classifier returns, the loop returns, and appends to
    [labels] the labels whose classifier returned true, in the order of the
    dictionary. *)
Lemma call_items_ok data items labels :
  (forall label c, (label, c) ∈ items ->
     exists b, (RegexBinaryClassifierAgent.__call__ data c).1 = Ok b) ->
  exists new,
    (call_items data items labels).1 = Ok (labels ++ new)%list
    /\ sublist new (dict_keys items)
    /\ forall label, label ∈ new <->
         exists c, (label, c) ∈ items
                   /\ (RegexBinaryClassifierAgent.__call__ data c).1 = Ok true.
Proof.
  revert labels; induction items as [|[label c] items IH]; intros labels Hret.
  { exists []. simpl. rewrite app_nil_r. split; [done|]. split; [done|].
    intros l. split; [by intros ?%elem_of_nil|].
    by intros (? & ?%elem_of_nil & _). }
  cbn [call_items].
  destruct (Hret label c) as [b Hb]; [left|].
  destruct (RegexBinaryClassifierAgent.__call__ data c) as [r c'] eqn:Hcall.
  simpl in Hb. subst r.
  destruct (IH (if b then (labels ++ [label])%list else labels)) as (new & Hnew & Hsub & Hiff).
  { intros l' c'' Hin. apply (Hret l' c''). by right. }
  destruct (call_items data items _) as [out rest']. simpl in Hnew. subst out.
  exists (if b then label :: new else new). simpl.
  split; [by destruct b; rewrite <- ?app_assoc|].
  split.
  { change (dict_keys ((label, c) :: items)) with (label :: dict_keys items).
    destruct b; by constructor. }
  intros l. split.
  - intros Hl.
    assert (l = label /\ b = true \/ l ∈ new) as [[-> ->]|Hin].
    { destruct b; [apply elem_of_cons in Hl as [->|?]|]; auto. }
    + exists c. split; [left|]. by rewrite Hcall.
    + apply Hiff in Hin as (c0 & Hin & Htrue). exists c0. split; [by right | done].
  - intros (c0 & Hin & Htrue). apply elem_of_cons in Hin as [[= -> ->]|Hin].
    + rewrite Hcall in Htrue. simpl in Htrue. injection Htrue as ->. left.
    + assert (l ∈ new) by (apply Hiff; eauto).
      destruct b; [by right | done].
Qed.

(** C4. For every text, when each label's Binary Pattern Matcher returns,
    the Multi-Label Classifier returns a sequence that contains a label if and
    only if the matcher bound to that label returns true on the text; the
    sequence has no duplicates and lists the labels in the order of the
    dictionary built at construction, which is the insertion order of the
    configuration. *)
Theorem multilabel_result
    (kw : list (string * RegexBinaryClassifierAgent.kwargs)) (self : t) (data : string) :
  __init__ kw = Ok self ->
  NoDup (dict_keys kw) ->
  (forall label c, dict_get (regex_binary_classifier_per_label self) label = Some c ->
     exists b, (RegexBinaryClassifierAgent.__call__ data c).1 = Ok b) ->
  exists labels,
    __call__ data self = (Ok labels, self)
    /\ (forall label, label ∈ labels <->
          exists c, dict_get (regex_binary_classifier_per_label self) label = Some c
                    /\ (RegexBinaryClassifierAgent.__call__ data c).1 = Ok true)
    /\ NoDup labels
    /\ sublist labels (dict_keys kw).
Proof.
  intros Hinit Hkw Hret.
  pose proof (init_NoDup _ _ Hinit) as Hnd.
  destruct (call_items_ok data (regex_binary_classifier_per_label self) []) as (new & Hnew & Hsub & Hiff).
  { intros label c Hin. apply (Hret label). by apply dict_get_elem_of. }
  exists new. split; [|split; [|split]].
  - pose proof (multilabel_call_frame data self) as Hf.
    unfold __call__ in *. destruct (call_items _ _ _) as [out items'].
    simpl in *. by subst.
  - intros label. rewrite Hiff. by setoid_rewrite dict_get_elem_of.
  - by eapply sublist_NoDup.
  - by rewrite <- (init_keys _ _ Hinit Hkw).
Qed.

End MultiLabel.

(** ** The Multi-Class Resolver *)

Section MultiClass.
Context `{ReModule}.
Import RegexMultiClassClassifierAgent.

Lemma py_in_elem_of (x : string) (l : list string) : py_in x l = true <-> x ∈ l.
Proof.
  induction l as [|y l IH]; simpl.
  - split; [done | by intros ?%elem_of_nil].
  - rewrite orb_true_iff, IH, elem_of_cons.
    destruct (String.eqb_spec y x); naive_solver.
Qed.

Lemma first_class_Some priorities res c :
  first_class priorities res = Some c <->
  exists before after,
    priorities = (before ++ c :: after)%list /\ c ∈ res /\ Forall (fun x => x ∉ res) before.
Proof.
  induction priorities as [|p priorities IH]; simpl.
  - split; [done|]. intros (before & after & Heq & _). by destruct before.
  - destruct (py_in p res) eqn:Hp.
    + apply py_in_elem_of in Hp. split.
      * intros [= ->]. by exists [], priorities.
      * intros ([|q before] & after & Heq & Hc & Hbefore); simplify_eq/=; [done|].
        by apply Forall_cons in Hbefore as [? _].
    + assert (p ∉ res) as Hnp by (rewrite <- py_in_elem_of; congruence).
      rewrite IH. split.
      * intros (before & after & -> & Hc & Hbefore).
        exists (p :: before), after. by repeat split; [|constructor].
      * intros ([|q before] & after & Heq & Hc & Hbefore); simplify_eq/=; [done|].
        apply Forall_cons in Hbefore as [_ ?]. eauto.
Qed.

Lemma first_class_None priorities res :
  first_class priorities res = None <-> Forall (fun x => x ∉ res) priorities.
Proof.
  induction priorities as [|p priorities IH]; simpl.
  - split; [constructor | done].
  - destruct (py_in p res) eqn:Hp.
    + apply py_in_elem_of in Hp. split; [done|]. by intros [? _]%Forall_cons.
    + assert (p ∉ res) as Hnp by (rewrite <- py_in_elem_of; congruence).
      rewrite IH, Forall_cons. naive_solver.
Qed.

Lemma multiclass_call_frame data self : (__call__ data self).2 = self.
Proof.
  unfold __call__, call_multilabel. unfold_method.
  pose proof (multilabel_call_frame data (regex_multilabel_classifier self)) as Hf.
  destruct (RegexMultiLabelClassifierAgent.__call__ _ _) as [[res|e] ml']; simpl in *;
    subst; by destruct self.
Qed.

(** C5. For every text and every priority list, when the Multi-Label
    Classifier returns [multi_label_res], the Multi-Class Resolver returns
    normally: either the first label of the priority list that is in
    [multi_label_res] (no label before it in the list is), or [None] when no
    label of the priority list is in [multi_label_res]. *)
Theorem multiclass_first_priority (self : t) (data : string) (multi_label_res : list string) :
  (RegexMultiLabelClassifierAgent.__call__ data (regex_multilabel_classifier self)).1
    = Ok multi_label_res ->
  exists answer : option string,
    __call__ data self = (Ok answer, self)
    /\ match answer with
       | Some c =>
           exists before after,
             classes_priorities self = (before ++ c :: after)%list
             /\ c ∈ multi_label_res
             /\ Forall (fun x => x ∉ multi_label_res) before
       | None => Forall (fun x => x ∉ multi_label_res) (classes_priorities self)
       end.
Proof.
  intros Hml. exists (first_class (classes_priorities self) multi_label_res). split.
  - pose proof (multiclass_call_frame data self) as Hf.
    unfold __call__, call_multilabel in *. unfold_method.
    destruct (RegexMultiLabelClassifierAgent.__call__ _ _) as [r ml'].
    simpl in Hml. subst r. simpl in *. by rewrite Hf.
  - destruct (first_class _ _) as [c|] eqn:Hfc.
    + by apply first_class_Some.
    + by apply first_class_None.
Qed.

(** C8. Every stage of the cascade (Binary Pattern Matcher, Multi-Label
    Classifier, Multi-Class Resolver), on every object and every text: a call
    leaves the object as it was, whatever the call returns or raises, and a
    second call on the same text gives the same result as the first. *)
Theorem cascade_repeatable
    (binary : RegexBinaryClassifierAgent.t) (multilabel : RegexMultiLabelClassifierAgent.t)
    (multiclass : t) (data : string) :
  (let run1 := RegexBinaryClassifierAgent.__call__ data binary in
   let run2 := RegexBinaryClassifierAgent.__call__ data run1.2 in
   run1.2 = binary /\ run2.1 = run1.1 /\ run2.2 = binary)
  /\ (let run1 := RegexMultiLabelClassifierAgent.__call__ data multilabel in
      let run2 := RegexMultiLabelClassifierAgent.__call__ data run1.2 in
      run1.2 = multilabel /\ run2.1 = run1.1 /\ run2.2 = multilabel)
  /\ (let run1 := __call__ data multiclass in
      let run2 := __call__ data run1.2 in
      run1.2 = multiclass /\ run2.1 = run1.1 /\ run2.2 = multiclass).
Proof.
  cbn zeta.
  rewrite !call_frame, !multilabel_call_frame, !multiclass_call_frame.
  rewrite ?call_frame, ?multilabel_call_frame, ?multiclass_call_frame.
  done.
Qed.

End MultiClass.

(** ** Construction of the Binary Pattern Matcher *)

Section Construction.
Import RegexBinaryClassifierAgent.

Lemma str_join_strings (sep : string) (ps : list string) :
  str_join sep (VStr <$> ps) = Ok (String.concat sep ps).
Proof.
  induction ps as [|p ps IH]; [done|].
  rewrite fmap_cons. cbn [str_join]. destruct ps as [|q ps]; [done|].
  rewrite IH. reflexivity.
Qed.

Lemma str_join_Ok (sep : string) (l : list pyval) (e : string) :
  str_join sep l = Ok e -> exists ps, l = VStr <$> ps /\ e = String.concat sep ps.
Proof.
  revert e; induction l as [|v l IH]; intros e.
  - intros [= <-]. by exists [].
  - cbn [str_join]. destruct v as [| |s| | |]; try done.
    destruct l as [|w l].
    + intros [= <-]. by exists [s].
    + destruct (str_join sep (w :: l)) as [r|] eqn:Hr; [|done].
      intros [= <-]. destruct (IH r eq_refl) as (ps & Hps & ->).
      exists (s :: ps). rewrite fmap_cons, <- Hps. split; [done|].
      destruct ps; [done | reflexivity].
Qed.

Lemma str_join_non_string (sep : string) (ps : list string) (v : pyval) (l : list pyval) :
  isinstance_str v = false -> str_join sep ((VStr <$> ps) ++ v :: l) = Raise TypeError.
Proof.
  intros Hv. induction ps as [|p ps IH].
  - by destruct v.
  - rewrite fmap_cons. cbn [app str_join]. rewrite IH.
    by destruct ((VStr <$> ps) ++ v :: l)%list.
Qed.

(** C9, as the code has it. A Pattern Set is constructed exactly from a single
    pattern (a string, which is the expression) or a list of strings, which
    may be empty (the expression is the patterns joined with [|]); with an
    empty list as the inclusion patterns the construction of the Binary
    Pattern Matcher succeeds, and the inclusion expression is the empty
    string. *)
Theorem pattern_set_construction (regex_patterns : pyval) (expression : string)
    (range : option Z) (relevant : string) :
  (_process_regex_patterns regex_patterns = Ok expression <->
     regex_patterns = VStr expression
     \/ exists ps, regex_patterns = VList (VStr <$> ps) /\ expression = String.concat "|" ps)
  /\ __init__ (VList []) (VList []) range relevant =
       Ok {| regex_pattern := ""; unwanted_regex_patterns := "";
             context_range := range; relevant_match := relevant |}.
Proof.
  split; [|done]. split.
  - destruct regex_patterns as [| |s|l| |]; try done.
    + intros [= <-]. by left.
    + intros Hj. right. apply str_join_Ok in Hj as (ps & -> & ->). eauto.
  - intros [->|(ps & -> & ->)]; [done|]. apply str_join_strings.
Qed.

(** The claim of C9 fails: the empty list as inclusion patterns constructs a
    matcher. *)
Lemma empty_inclusion_list_constructs :
  ~ (exists e, __init__ (VList []) (VList []) None "any" = Raise e).
Proof. intros [e He]. discriminate He. Qed.

(** C6, where the code departs from it. A list with an item that is not a
    string is neither a string nor a sequence of strings; as inclusion or as
    exclusion patterns it makes the construction raise [TypeError], from the
    join, and not [InvalidPatternType]. *)
Theorem list_with_non_string_raises_TypeError :
  __init__ (VList [VInt 1]) (VList []) None "any" = Raise TypeError
  /\ __init__ (VStr "a") (VList [VStr "b"; VInt 1]) None "any" = Raise TypeError
  /\ TypeError <> InvalidPatternType.
Proof. by repeat split. Qed.

(** What holds of C6: an input that is neither a string nor a list raises
    [InvalidPatternType], for either argument; every string and every list of
    strings constructs. *)
Lemma process_rejects_other_types (regex_patterns : pyval) :
  isinstance_str regex_patterns = false -> isinstance_list regex_patterns = false ->
  _process_regex_patterns regex_patterns = Raise InvalidPatternType.
Proof. by destruct regex_patterns. Qed.

Lemma init_rejects_inclusion (regex_patterns unwanted : pyval) (range : option Z)
    (relevant : string) :
  isinstance_str regex_patterns = false -> isinstance_list regex_patterns = false ->
  __init__ regex_patterns unwanted range relevant = Raise InvalidPatternType.
Proof.
  intros Hs Hl. unfold __init__.
  rewrite (process_rejects_other_types regex_patterns Hs Hl). reflexivity.
Qed.

Lemma init_rejects_exclusion (regex_patterns unwanted : pyval) (expression : string)
    (range : option Z) (relevant : string) :
  _process_regex_patterns regex_patterns = Ok expression ->
  isinstance_str unwanted = false -> isinstance_list unwanted = false ->
  __init__ regex_patterns unwanted range relevant = Raise InvalidPatternType.
Proof.
  intros He Hs Hl. unfold __init__.
  rewrite He, (process_rejects_other_types unwanted Hs Hl). reflexivity.
Qed.

Lemma process_accepts (p : string + list string) :
  _process_regex_patterns (Reference.patterns_value p) = Ok (Reference.patterns_expression p).
Proof. destruct p as [s|ps]; [done | apply str_join_strings]. Qed.

Lemma init_accepts (inclusion exclusion : string + list string) (range : option Z)
    (relevant : string) :
  __init__ (Reference.patterns_value inclusion) (Reference.patterns_value exclusion)
      range relevant =
    Ok {| regex_pattern := Reference.patterns_expression inclusion;
          unwanted_regex_patterns := Reference.patterns_expression exclusion;
          context_range := range; relevant_match := relevant |}.
Proof. unfold __init__. by rewrite !process_accepts. Qed.

End Construction.

(** ** The empty inclusion list *)

Section EmptyInclusion.
Context `{ReModule}.
Import RegexBinaryClassifierAgent.

(** Without an exclusion expression every occurrence sets [curr_res] to
    true, under every policy. *)
Lemma loop_no_exclusion (data : string) (matches : list (Z * Z)) (b : bool) (self : t) :
  unwanted_regex_patterns self = "" ->
  loop data matches b self = (Ok (match matches with [] => b | _ => true end), self).
Proof.
  intros Hu. revert b; induction matches as [|[start end_] rest IH]; intros b; [done|].
  rewrite loop_cons, Hu. cbn.
  destruct (String.eqb (relevant_match self) "any"); [done|].
  destruct (String.eqb (relevant_match self) "first"); [done|].
  rewrite IH. by destruct rest.
Qed.

Lemma call_no_exclusion (data : string) (self : t) (inclusion : Pattern) :
  re_compile (regex_pattern self) = Ok inclusion ->
  unwanted_regex_patterns self = "" ->
  Pattern_finditer inclusion data <> [] ->
  __call__ data self = (Ok true, self).
Proof.
  intros Hc Hu Hocc. unfold __call__, re_finditer. unfold_method. rewrite Hc.
  rewrite loop_no_exclusion by done.
  by destruct (Pattern_finditer inclusion data).
Qed.

(** C10. With the empty list as inclusion patterns and no exclusion patterns,
    the construction succeeds with the empty expression, for every context
    range and every value of [relevant_match]; and on every text in which the
    empty expression has an occurrence (in Python's [re] it has one at
    every position of every text, the empty text included) the matcher
    returns true. *)
Theorem empty_inclusion_list_always_true (range : option Z) (relevant : string)
    (data : string) (empty : Pattern) :
  re_compile "" = Ok empty ->
  Pattern_finditer empty data <> [] ->
  exists self,
    __init__ (VList []) (VList []) range relevant = Ok self
    /\ regex_pattern self = ""
    /\ __call__ data self = (Ok true, self).
Proof.
  intros Hc Hocc. eexists. split; [reflexivity|]. split; [done|].
  by apply (call_no_exclusion _ _ empty).
Qed.

End EmptyInclusion.

(** ** The Fan-Out Executor *)

Section FanOut.
Import MultiInputsAgentExecuter.

Lemma dict_set_fresh {K V} `{EqDecision K} (d : list (K * V)) (k : K) (v : V) :
  k ∉ dict_keys d -> dict_set d k v = (d ++ [(k, v)])%list.
Proof.
  unfold dict_keys. induction d as [|[k' v'] d IH]; intros Hk; [done|].
  cbn [dict_set]. rewrite fmap_cons in Hk. apply not_elem_of_cons in Hk as [Hne Hk].
  rewrite decide_False by done. by rewrite IH.
Qed.

Lemma completions_Permutation {A} (n : nat) (order : list nat) (pending : list A) :
  length pending = n -> completions n order pending ≡ₚ pending.
Proof.
  revert order pending; induction n as [|n IH]; intros order pending Hlen.
  - by destruct pending.
  - cbn [completions].
    assert (hd 0 order mod length pending < length pending)%nat as Hi
      by (apply Nat.mod_upper_bound; lia).
    destruct (lookup_lt_is_Some_2 _ _ Hi) as [f Hf]. rewrite Hf.
    rewrite IH.
    + symmetry. by apply delete_Permutation.
    + rewrite length_delete by eauto. lia.
Qed.

Lemma as_completed_Permutation {A} (order : list nat) (pending : list A) :
  as_completed order pending ≡ₚ pending.
Proof. by apply completions_Permutation. Qed.

(** The completion order does not look at what the futures hold. *)
Lemma as_completed_fmap {A B} (f : A -> B) (order : list nat) (pending : list A) :
  as_completed order (f <$> pending) = f <$> as_completed order pending.
Proof.
  unfold as_completed. rewrite length_fmap.
  generalize (length pending) as n. intros n.
  revert order pending; induction n as [|n IH]; intros order pending; [done|].
  cbn [completions]. rewrite length_fmap, list_lookup_fmap.
  destruct (pending !! _) as [x|]; [|done]. cbn.
  by rewrite <- list_fmap_delete, IH.
Qed.

(** Tasks that all return, collected under keys that are fresh, give one
    entry per task, in the order of completion. *)
Lemma collect_fresh (rs acc : list (pykey * pyval)) :
  NoDup (dict_keys (acc ++ rs)) ->
  collect ((fun kr => (Ok kr.2, kr.1)) <$> rs) acc = Ok (acc ++ rs)%list.
Proof.
  revert acc; induction rs as [|[k r] rs IH]; intros acc Hnd.
  - by rewrite app_nil_r.
  - rewrite fmap_cons. cbn [collect fst snd]. cbn.
    rewrite dict_set_fresh.
    + rewrite IH; rewrite <- app_assoc; done.
    + unfold dict_keys in *. rewrite fmap_app in Hnd.
      apply NoDup_app in Hnd as (_ & Hdis & _).
      intros Hin. apply (Hdis _ Hin). left.
Qed.

Lemma submit_all_returns (a : agent_object) (d rs : list (pykey * pyval)) :
  returns a d rs ->
  (submit_all a d).1 = Ok ((fun kr => (Ok kr.2, kr.1)) <$> rs).
Proof.
  induction 1 as [|[k v] [k' r] d rs (Hk & kw & Hkw & Hr) _ IH]; [done|].
  simpl in Hk, Hkw, Hr. subst k'. cbn [submit_all]. rewrite Hkw.
  destruct (submit_all a d) as [out trace]. simpl in IH. subst out.
  cbn. by rewrite Hr.
Qed.

Lemma returns_keys (a : agent_object) (d rs : list (pykey * pyval)) :
  returns a d rs -> dict_keys rs = dict_keys d.
Proof.
  unfold dict_keys. induction 1 as [|[k v] [k' r] d rs (Hk & _) _ IH]; [done|].
  rewrite !fmap_cons. simpl in *. by rewrite Hk, IH.
Qed.

(** On a normalized job whose tasks all return, the results are a
    dictionary with one entry per key, in the order of completion. *)
Lemma keyed_results (self : t) (order : list nat) (kwargs : list (string * pyval))
    (a : agent_object) (d rs : list (pykey * pyval)) :
  agent self kwargs = Ok a ->
  NoDup (dict_keys d) ->
  returns a d rs ->
  exists results,
    (future_to_key ← (submit_all a d).1;
     collect (as_completed order future_to_key) []) = Ok results
    /\ results ≡ₚ rs.
Proof.
  intros Ha Hnd Hrs. rewrite (submit_all_returns _ _ _ Hrs). cbn.
  rewrite as_completed_fmap.
  pose proof (as_completed_Permutation order rs) as Hperm.
  exists (as_completed order rs). split; [|done].
  apply (collect_fresh _ []). cbn [app].
  unfold dict_keys. rewrite Hperm. fold (dict_keys rs).
  by rewrite (returns_keys _ _ _ Hrs).
Qed.

End FanOut.

Section FanOutClaims.
Import MultiInputsAgentExecuter.

Lemma enumerate_keys (l : list pyval) :
  dict_keys (enumerate l) = (fun i => KInt (Z.of_nat i)) <$> seq 0 (length l).
Proof.
  unfold dict_keys, enumerate. rewrite fmap_imap.
  apply (imap_seq_0 l (fun i => KInt (Z.of_nat i))).
Qed.

Lemma enumerate_NoDup (l : list pyval) : NoDup (dict_keys (enumerate l)).
Proof.
  rewrite enumerate_keys. apply NoDup_fmap_2; [|apply NoDup_seq].
  intros i j [= Hij]. lia.
Qed.

(** A mapping whose tasks all return gives a mapping with one entry per
    original key: the keys of the result are exactly the original keys. *)
Lemma mapping_inputs_keep_keys (self : t) (order : list nat)
    (kwargs : list (string * pyval)) (a : agent_object) (d rs : list (pykey * pyval)) :
  agent self kwargs = Ok a ->
  NoDup (dict_keys d) ->
  returns a d rs ->
  exists results,
    (__call__ self order (VDict d) kwargs).1 = Ok (VDict results)
    /\ results ≡ₚ rs
    /\ dict_keys results ≡ₚ dict_keys d.
Proof.
  intros Ha Hnd Hrs.
  destruct (keyed_results self order kwargs a d rs Ha Hnd Hrs) as (results & Hres & Hperm).
  exists results. split; [|split; [done|]].
  - unfold __call__. cbn [isinstance_dict orb items isinstance_list]. rewrite Ha.
    destruct (submit_all a d) as [out trace]. cbn [fst] in *.
    destruct out as [futures|e]; [|done]. cbn in Hres |- *. by rewrite Hres.
  - unfold dict_keys. rewrite Hperm. fold (dict_keys rs).
    by rewrite (returns_keys _ _ _ Hrs).
Qed.

(** A list whose tasks all return gives a mapping too, keyed by the
    positions 0..n-1, in the order of completion: the conversion back to a
    list tests the name [inputs] after it has been rebound to the
    dictionary. *)
Lemma list_inputs_return_mapping (self : t) (order : list nat)
    (kwargs : list (string * pyval)) (a : agent_object) (l : list pyval)
    (rs : list (pykey * pyval)) :
  agent self kwargs = Ok a ->
  returns a (enumerate l) rs ->
  exists results,
    (__call__ self order (VList l) kwargs).1 = Ok (VDict results)
    /\ results ≡ₚ rs.
Proof.
  intros Ha Hrs.
  destruct (keyed_results self order kwargs a (enumerate l) rs Ha (enumerate_NoDup l) Hrs)
    as (results & Hres & Hperm).
  exists results. split; [|done].
  unfold __call__. cbn [isinstance_dict isinstance_list orb items]. rewrite Ha.
  rewrite (dict_of_items_fresh _ (enumerate_NoDup l)).
  destruct (submit_all a (enumerate l)) as [out trace]. cbn [fst] in *.
  destruct out as [futures|e]; [|done]. cbn in Hres |- *. by rewrite Hres.
Qed.

(** No list input is answered with a list. *)
Lemma list_inputs_never_return_list (self : t) (order : list nat)
    (kwargs : list (string * pyval)) (l : list pyval) :
  match (__call__ self order (VList l) kwargs).1 with
  | Ok r => isinstance_list r = false /\ isinstance_dict r = true
  | Raise _ => True
  end.
Proof.
  unfold __call__. cbn [isinstance_dict isinstance_list orb items].
  destruct (agent self kwargs) as [a|e]; [|done].
  destruct (submit_all a _) as [[futures|e] trace]; [|done]. cbn.
  by destruct (collect _ _).
Qed.

(** C1, where the code departs from it. On the list of five argument sets
    and the agent that returns its index, the executor returns a mapping from
    the positions to the results, not a list; its entries are in the order
    in which the tasks complete, here first in the order of submission, then
    in the reverse order. *)
Theorem fan_out_list_returns_dict :
  (__call__ index_agent [] five_inputs []).1 =
    Ok (VDict [(KInt 0, VInt 0); (KInt 1, VInt 1); (KInt 2, VInt 2);
               (KInt 3, VInt 3); (KInt 4, VInt 4)])
  /\ (__call__ index_agent [4; 3; 2; 1; 0]%nat five_inputs []).1 =
       Ok (VDict [(KInt 4, VInt 4); (KInt 3, VInt 3); (KInt 2, VInt 2);
                  (KInt 1, VInt 1); (KInt 0, VInt 0)]).
Proof. split; vm_compute; reflexivity. Qed.

(** C7. For every [inputs] that is neither a dictionary nor a list, a string
    or an integer for instance, the executor raises [InvalidInputType], and
    nothing has happened before: the agent is not constructed and no task is
    submitted. *)
Theorem invalid_inputs_fail_fast (self : t) (order : list nat) (inputs : pyval)
    (kwargs : list (string * pyval)) :
  isinstance_dict inputs = false -> isinstance_list inputs = false ->
  __call__ self order inputs kwargs = (Raise InvalidInputType, []).
Proof.
  intros Hd Hl. unfold __call__. by rewrite Hd, Hl.
Qed.

End FanOutClaims.

(** ** The literal instance of [re] *)

Section Literal.
Import LiteralRe.
Local Open Scope nat_scope.

Lemma prefix_length (a s : string) :
  String.prefix a s = true -> String.length a <= String.length s.
Proof.
  revert s; induction a as [|c a IH]; intros [|c' s]; simpl; try done; try lia.
  destruct (ascii_dec c c'); [|done].
  intros Hp%IH. lia.
Qed.

Lemma match_at_length (alts : list string) (must_advance : bool) (s : string) (k : nat) :
  match_at alts must_advance s = Some k -> k <= String.length s.
Proof.
  induction alts as [|a alts IH]; simpl; [done|].
  destruct (String.prefix a s) eqn:Hp; simpl; [|done].
  destruct (negb _); [|done]. intros [= <-]. by apply prefix_length.
Qed.

Lemma search_from_bounds (alts : list string) (must_advance : bool) (pos : nat) (s : string)
    (start end_ : nat) :
  search_from alts must_advance pos s = Some (start, end_) ->
  pos <= start <= end_ /\ end_ <= pos + String.length s.
Proof.
  revert must_advance pos; induction s as [|c s IH]; intros must_advance pos; simpl.
  - destruct (match_at alts must_advance "") as [k|] eqn:Hk; [|done].
    apply match_at_length in Hk. simpl in Hk. intros [= <- <-]. lia.
  - destruct (match_at alts must_advance (String c s)) as [k|] eqn:Hk.
    + apply match_at_length in Hk. simpl in Hk. intros [= <- <-]. lia.
    + intros Hs%IH. lia.
Qed.

Lemma drop_chars_length (n : nat) (s : string) :
  n <= String.length s -> String.length (drop_chars n s) = String.length s - n.
Proof.
  revert s; induction n as [|n IH]; intros s; [destruct s; simpl; lia|].
  destruct s as [|c s]; simpl; [lia|]. intros Hn. apply IH. lia.
Qed.

Lemma scan_bounds (fuel : nat) (alts : list string) (must_advance : bool) (pos : nat)
    (s : string) (total : nat) :
  pos + String.length s = total ->
  Forall (fun span : Z * Z => (0 <= span.1 <= span.2)%Z /\ (span.2 <= Z.of_nat total)%Z)
         (scan fuel alts must_advance pos s).
Proof.
  revert must_advance pos s; induction fuel as [|fuel IH]; intros must_advance pos s Htotal;
    simpl; [constructor|].
  destruct (search_from alts must_advance pos s) as [[start end_]|] eqn:Hs; [|constructor].
  apply search_from_bounds in Hs. constructor; [simpl; lia|].
  apply IH. rewrite drop_chars_length; lia.
Qed.

(** Every span of the literal instance lies inside the text. *)
Lemma literal_spans_in_text (alts : list string) (data : string) :
  Forall (Reference.span_in data) (@Pattern_finditer re alts data).
Proof. apply (scan_bounds _ alts false 0 data). lia. Qed.

Lemma search_empty_here (pos : nat) (s : string) :
  search_from [""] false pos s = Some (pos, pos).
Proof. destruct s; cbn; by rewrite Nat.add_0_r. Qed.

Lemma scan_empty_after (fuel pos : nat) (s : string) :
  String.length s <= fuel ->
  scan fuel [""] true pos s =
    (fun i => (Z.of_nat i, Z.of_nat i)) <$> seq (S pos) (String.length s).
Proof.
  revert fuel pos; induction s as [|c s IH]; intros fuel pos Hfuel.
  - by destruct fuel.
  - destruct fuel as [|fuel]; simpl in Hfuel; [lia|].
    cbn [scan search_from match_at String.prefix String.length Nat.eqb andb negb].
    rewrite search_empty_here, Nat.eqb_refl.
    replace (S pos - pos) with 1 by lia. cbn [drop_chars seq fmap list_fmap].
    f_equal. apply IH. lia.
Qed.

(** The empty expression has an occurrence at every position, the end of
    the text included. *)
Lemma literal_empty_pattern_everywhere (data : string) :
  @Pattern_finditer re [""] data =
    (fun i => (Z.of_nat i, Z.of_nat i)) <$> seq 0 (S (String.length data)).
Proof.
  cbn [Pattern_finditer re]. unfold finditer.
  replace (2 * String.length data + 3) with (S (2 * String.length data + 2)) by lia.
  cbn [scan]. rewrite search_empty_here.
  cbn [Nat.eqb Nat.sub drop_chars seq fmap list_fmap]. f_equal.
  replace (drop_chars 0 data) with data by (by destruct data).
  apply scan_empty_after. lia.
Qed.

End Literal.

(** ** The claims at concrete inputs, on the literal fragment of [re] *)

Section Instances.
Import Fixtures.

Lemma binary_call_refines_reference_witness :
  @RegexBinaryClassifierAgent.__call__ LiteralRe.re "bad great xxxxxxx great"
      (great_not_bad "first") =
    (Ok (@Reference.evaluate LiteralRe.re Reference.first ["great"] (Some ["bad"]) (Some 4)
           "bad great xxxxxxx great"),
     great_not_bad "first").
Proof.
  apply (@binary_call_refines_reference LiteralRe.re Reference.first
           ["great"] (Some ["bad"]) (great_not_bad "first") "bad great xxxxxxx great").
  - reflexivity.
  - split; [discriminate | reflexivity].
  - reflexivity.
  - intros r [= <-]. lia.
  - assert (@Pattern_finditer LiteralRe.re ["great"] "bad great xxxxxxx great"
            = [(4, 9); (18, 23)]) as -> by (vm_compute; reflexivity).
    constructor; [unfold Reference.span_in, len; simpl; lia|].
    constructor; [unfold Reference.span_in, len; simpl; lia|].
    constructor.
Defined.

Lemma context_window_exact_witness :
  RegexBinaryClassifierAgent.context_span (Some 4) "bad great xxxxxxx great" 4 9 = (0, 13)
  /\ RegexBinaryClassifierAgent.context_text (Some 4) "bad great xxxxxxx great" 4 9
     = "bad great xxx"
  /\ RegexBinaryClassifierAgent.context_text None "bad great xxxxxxx great" 4 9
     = "bad great xxxxxxx great".
Proof.
  assert (Reference.span_in "bad great xxxxxxx great" (4, 9)) as Hspan
    by (unfold Reference.span_in, len; simpl; lia).
  assert (0 <= 4) as Hr by lia.
  destruct (@context_window_exact LiteralRe.re "bad great xxxxxxx great" 4 9 4 Hspan Hr)
    as (Hs & _ & _ & _ & _ & Hnone & _).
  split; [exact Hs|]. split; [reflexivity | exact Hnone].
Defined.

Lemma multilabel_result_witness :
  exists labels,
    @RegexMultiLabelClassifierAgent.__call__ LiteralRe.re "great and ok" sentiment_multilabel
      = (Ok labels, sentiment_multilabel)
    /\ NoDup labels
    /\ sublist labels ["positive"; "negative"; "neutral"].
Proof.
  assert (RegexMultiLabelClassifierAgent.__init__ sentiment_kwargs = Ok sentiment_multilabel)
    as Hinit by reflexivity.
  assert (NoDup (dict_keys sentiment_kwargs)) as Hnd.
  { apply (bool_decide_unpack _). vm_compute. exact I. }
  destruct (@multilabel_result LiteralRe.re sentiment_kwargs sentiment_multilabel
              "great and ok" Hinit Hnd) as (labels & Hcall & _ & Hlabels & Hsub).
  { intros label c Hget. cbn in Hget.
    repeat case_decide; simplify_eq; eexists; vm_compute; reflexivity. }
  exists labels. split; [exact Hcall|]. split; [exact Hlabels | exact Hsub].
Defined.

Lemma multiclass_first_priority_witness :
  exists answer,
    @RegexMultiClassClassifierAgent.__call__ LiteralRe.re "great and ok" sentiment_multiclass
      = (Ok answer, sentiment_multiclass).
Proof.
  destruct (@multiclass_first_priority LiteralRe.re sentiment_multiclass "great and ok"
              ["positive"; "neutral"]) as (answer & Hcall & _).
  { vm_compute. reflexivity. }
  exists answer. exact Hcall.
Defined.

Lemma invalid_inputs_fail_fast_witness :
  MultiInputsAgentExecuter.__call__ MultiInputsAgentExecuter.index_agent [] (VStr "abc") []
    = (Raise MultiInputsAgentExecuter.InvalidInputType, [])
  /\ MultiInputsAgentExecuter.__call__ MultiInputsAgentExecuter.index_agent [] (VInt 7) []
     = (Raise MultiInputsAgentExecuter.InvalidInputType, []).
Proof.
  split; apply invalid_inputs_fail_fast; reflexivity.
Defined.

Lemma empty_inclusion_list_always_true_witness :
  exists self,
    RegexBinaryClassifierAgent.__init__ (VList []) (VList []) None "last" = Ok self
    /\ RegexBinaryClassifierAgent.regex_pattern self = ""
    /\ @RegexBinaryClassifierAgent.__call__ LiteralRe.re "" self = (Ok true, self).
Proof.
  apply (@empty_inclusion_list_always_true LiteralRe.re None "last" "" [""]).
  - reflexivity.
  - vm_compute. discriminate.
Defined.

(** In the literal fragment the empty expression has an occurrence in every
    text, so the matcher built from the empty list answers true everywhere. *)
Lemma literal_empty_pattern_occurs (data : string) :
  @Pattern_finditer LiteralRe.re [""] data <> [].
Proof. by rewrite literal_empty_pattern_everywhere. Qed.

Lemma literal_empty_inclusion_true (range : option Z) (relevant : string) (data : string) :
  exists self,
    RegexBinaryClassifierAgent.__init__ (VList []) (VList []) range relevant = Ok self
    /\ (@RegexBinaryClassifierAgent.__call__ LiteralRe.re data self).1 = Ok true.
Proof.
  eexists. split; [reflexivity|].
  rewrite (@call_no_exclusion LiteralRe.re _ _ [""]); [done..|].
  apply literal_empty_pattern_occurs.
Qed.

(** The examples of the specification. *)

Example great_but_also_bad :
  (@RegexBinaryClassifierAgent.__call__ LiteralRe.re "This is great but also bad"
     great_not_bad_anywhere).1 = Ok false
  /\ (@RegexBinaryClassifierAgent.__call__ LiteralRe.re "This is great"
        great_not_bad_anywhere).1 = Ok true.
Proof. split; vm_compute; reflexivity. Qed.

Example first_and_last_differ :
  (@RegexBinaryClassifierAgent.__call__ LiteralRe.re "bad great xxxxxxx great"
     (great_not_bad "first")).1 = Ok false
  /\ (@RegexBinaryClassifierAgent.__call__ LiteralRe.re "bad great xxxxxxx great"
        (great_not_bad "last")).1 = Ok true
  /\ (@RegexBinaryClassifierAgent.__call__ LiteralRe.re "bad great xxxxxxx great"
        (great_not_bad "any")).1 = Ok true.
Proof. repeat split; vm_compute; reflexivity. Qed.

Example no_occurrence_is_false :
  (@RegexBinaryClassifierAgent.__call__ LiteralRe.re "nothing here" (great_not_bad "any")).1
    = Ok false
  /\ (@RegexBinaryClassifierAgent.__call__ LiteralRe.re "nothing here" (great_not_bad "first")).1
     = Ok false
  /\ (@RegexBinaryClassifierAgent.__call__ LiteralRe.re "nothing here" (great_not_bad "last")).1
     = Ok false.
Proof. repeat split; vm_compute; reflexivity. Qed.

Example great_and_ok :
  (@RegexMultiLabelClassifierAgent.__call__ LiteralRe.re "great and ok" sentiment_multilabel).1
    = Ok ["positive"; "neutral"]
  /\ (@RegexMultiClassClassifierAgent.__call__ LiteralRe.re "great and ok"
        sentiment_multiclass).1 = Ok (Some "positive")
  /\ (@RegexMultiClassClassifierAgent.__call__ LiteralRe.re "nothing here"
        sentiment_multiclass).1 = Ok None.
Proof. repeat split; vm_compute; reflexivity. Qed.

Example mapping_keys :
  (MultiInputsAgentExecuter.__call__ MultiInputsAgentExecuter.index_agent [1]%nat
     (VDict [(KStr "a", VDict [(KStr "index", VInt 7)]);
             (KStr "b", VDict [(KStr "index", VInt 8)])]) []).1
    = Ok (VDict [(KStr "b", VInt 8); (KStr "a", VInt 7)]).
Proof. vm_compute; reflexivity. Qed.

End Instances.

(** * Further properties *)

(** ** The Binary Pattern Matcher: policies, context and malformed patterns *)

Section BinaryMatcherMore.
Context `{ReModule}.
Import RegexBinaryClassifierAgent.

Lemma call_compiled (data : string) (self : t) (inclusion : Pattern) :
  re_compile (regex_pattern self) = Ok inclusion ->
  __call__ data self = loop data (Pattern_finditer inclusion data) false self.
Proof.
  intros Hc. unfold __call__, re_finditer. unfold_method. by rewrite Hc.
Qed.

Lemma call_not_compiled (data : string) (self : t) (e : exn) :
  re_compile (regex_pattern self) = Raise e -> __call__ data self = (Raise e, self).
Proof.
  intros Hc. unfold __call__, re_finditer. unfold_method. by rewrite Hc.
Qed.

(** Without exclusion patterns the matcher answers whether the inclusion
    expression occurs in the text at all, whatever [relevant_match] and
    [context_range] are. *)
Theorem no_exclusion_answers_occurrence (self : t) (data : string) (inclusion : Pattern) :
  re_compile (regex_pattern self) = Ok inclusion ->
  unwanted_regex_patterns self = "" ->
  __call__ data self =
    (Ok (match Pattern_finditer inclusion data with [] => false | _ => true end), self).
Proof.
  intros Hc Hu. rewrite (call_compiled _ _ _ Hc). by apply loop_no_exclusion.
Qed.

Lemma context_text_None (data : string) (start end_ : Z) :
  context_text None data start end_ = data.
Proof.
  unfold context_text, context_span. cbn [fst snd].
  rewrite py_slice_inside by (pose proof (len_nonneg data); lia).
  unfold len. rewrite Z.sub_0_r, Nat2Z.id. apply substring_all.
Qed.

Lemma loop_whole_text (data : string) (matches : list (Z * Z)) (b : bool) (self : t)
    (ex : Pattern) :
  context_range self = None ->
  unwanted_regex_patterns self <> "" ->
  re_compile (unwanted_regex_patterns self) = Ok ex ->
  loop data matches b self =
    (Ok (match matches with [] => b | _ => negb (Pattern_search ex data) end), self).
Proof.
  intros Hr Hne Hc. revert b; induction matches as [|[start end_] rest IH]; intros b; [done|].
  rewrite loop_cons, Hr, context_text_None. cbn zeta. unfold truthy.
  destruct (String.eqb_spec (unwanted_regex_patterns self) ""); [done|].
  cbn [negb]. unfold re_search. unfold_method. rewrite Hc.
  destruct (String.eqb (relevant_match self) "any").
  - destruct (negb (Pattern_search ex data)) eqn:Hq; [done|].
    rewrite IH. by destruct rest.
  - destruct (String.eqb (relevant_match self) "first"); [done|].
    rewrite IH. by destruct rest.
Qed.

(** With the whole text as context every occurrence has the same
    qualification, so the three policies (and any other value of
    [relevant_match]) agree: the answer is true iff the inclusion expression
    occurs and the exclusion expression occurs nowhere in the text. *)
Theorem whole_text_context_policies_agree (self : t) (data : string)
    (inclusion exclusion : Pattern) :
  context_range self = None ->
  re_compile (regex_pattern self) = Ok inclusion ->
  unwanted_regex_patterns self <> "" ->
  re_compile (unwanted_regex_patterns self) = Ok exclusion ->
  __call__ data self =
    (Ok (match Pattern_finditer inclusion data with
         | [] => false
         | _ => negb (Pattern_search exclusion data)
         end), self).
Proof.
  intros Hr Hc Hne Hce. rewrite (call_compiled _ _ _ Hc). by apply loop_whole_text.
Qed.

(** A malformed exclusion expression is only noticed on a text in which the
    inclusion expression occurs: there the call raises the error of the
    compilation; on a text without occurrence it returns false. *)
Theorem malformed_exclusion_needs_occurrence (self : t) (data : string)
    (inclusion : Pattern) (e : exn) :
  re_compile (regex_pattern self) = Ok inclusion ->
  unwanted_regex_patterns self <> "" ->
  re_compile (unwanted_regex_patterns self) = Raise e ->
  __call__ data self =
    (match Pattern_finditer inclusion data with [] => Ok false | _ => Raise e end, self).
Proof.
  intros Hc Hne Hce. rewrite (call_compiled _ _ _ Hc).
  destruct (Pattern_finditer inclusion data) as [|[start end_] rest]; [done|].
  rewrite loop_cons. cbn zeta. unfold truthy.
  destruct (String.eqb_spec (unwanted_regex_patterns self) ""); [done|].
  cbn [negb]. unfold re_search. unfold_method. by rewrite Hce.
Qed.

(** The loops of two objects that agree on everything but [relevant_match],
    the second with the policy [any]. *)
Lemma loop_any_dominates (data : string) (matches : list (Z * Z)) (b b' : bool)
    (self self' : t) :
  unwanted_regex_patterns self' = unwanted_regex_patterns self ->
  context_range self' = context_range self ->
  relevant_match self' = "any" ->
  (loop data matches b self).1 = Ok true ->
  (loop data matches b' self').1 = Ok true \/ matches = [].
Proof.
  intros Hu Hr Hany. revert b b'.
  induction matches as [|[start end_] rest IH]; intros b b' Htrue; [by right|]. left.
  rewrite loop_cons in Htrue. rewrite loop_cons, Hu, Hr, Hany. cbn zeta in *.
  destruct (if truthy _ then _ else _) as [found|e]; [|done].
  cbn [String.eqb Ascii.eqb Bool.eqb].
  destruct (negb found) eqn:Hq; [done|].
  destruct (String.eqb (relevant_match self) "any").
  - destruct (IH false false Htrue) as [?| ->]; [done|]. done.
  - destruct (String.eqb (relevant_match self) "first"); [done|].
    destruct (IH false false Htrue) as [?| ->]; [done|]. done.
Qed.

(** [any] is the most permissive policy: when a matcher answers true under
    some value of [relevant_match], the matcher with the same patterns and
    context answers true under [any]. *)
Theorem any_is_most_permissive (self self' : t) (data : string) :
  regex_pattern self' = regex_pattern self ->
  unwanted_regex_patterns self' = unwanted_regex_patterns self ->
  context_range self' = context_range self ->
  relevant_match self' = "any" ->
  (__call__ data self).1 = Ok true ->
  (__call__ data self').1 = Ok true.
Proof.
  intros Hp Hu Hr Hany Htrue.
  destruct (re_compile (regex_pattern self)) as [inclusion|e] eqn:Hc.
  - rewrite (call_compiled _ _ _ Hc) in Htrue.
    rewrite (call_compiled data self' inclusion) by (by rewrite Hp).
    destruct (loop_any_dominates data _ false false self self' Hu Hr Hany Htrue) as [?|Hnil];
      [done|].
    by rewrite Hnil in Htrue.
  - by rewrite (call_not_compiled _ _ _ Hc) in Htrue.
Qed.

Lemma loop_other_policy (data : string) (matches : list (Z * Z)) (b : bool) (self self' : t) :
  unwanted_regex_patterns self' = unwanted_regex_patterns self ->
  context_range self' = context_range self ->
  String.eqb (relevant_match self) "any" = false ->
  String.eqb (relevant_match self) "first" = false ->
  relevant_match self' = "last" ->
  (loop data matches b self').1 = (loop data matches b self).1.
Proof.
  intros Hu Hr Hany Hfirst Hlast. revert b.
  induction matches as [|[start end_] rest IH]; intros b; [done|].
  rewrite !loop_cons, Hu, Hr, Hlast, Hany, Hfirst. cbn zeta.
  destruct (if truthy _ then _ else _) as [found|e]; [|done].
  cbn [String.eqb Ascii.eqb Bool.eqb]. apply IH.
Qed.

(** Every value of [relevant_match] other than [any] and [first] is treated
    as [last]. *)
Theorem other_policies_behave_as_last (self self' : t) (data : string) :
  regex_pattern self' = regex_pattern self ->
  unwanted_regex_patterns self' = unwanted_regex_patterns self ->
  context_range self' = context_range self ->
  relevant_match self <> "any" -> relevant_match self <> "first" ->
  relevant_match self' = "last" ->
  (__call__ data self').1 = (__call__ data self).1.
Proof.
  intros Hp Hu Hr Hany Hfirst Hlast.
  destruct (re_compile (regex_pattern self)) as [inclusion|e] eqn:Hc.
  - rewrite (call_compiled _ _ _ Hc), (call_compiled data self' inclusion) by (by rewrite Hp).
    apply loop_other_policy; try done; by apply String.eqb_neq.
  - rewrite (call_not_compiled _ _ _ Hc), (call_not_compiled data self' e); [done|].
    by rewrite Hp.
Qed.

Lemma context_text_large_radius (data : string) (start end_ r : Z) :
  Reference.span_in data (start, end_) -> len data <= r ->
  context_text (Some r) data start end_ = data.
Proof.
  intros [[Hs Hse] He] Hr. simpl in Hs, Hse, He.
  unfold context_text, context_span. cbn [fst snd].
  rewrite Z.max_l, Z.min_l by lia. apply (context_text_None data start end_).
Qed.

Lemma loop_large_radius (data : string) (matches : list (Z * Z)) (b : bool) (self self' : t)
    (r : Z) :
  unwanted_regex_patterns self' = unwanted_regex_patterns self ->
  relevant_match self' = relevant_match self ->
  context_range self = Some r -> context_range self' = None ->
  len data <= r ->
  Forall (Reference.span_in data) matches ->
  (loop data matches b self').1 = (loop data matches b self).1.
Proof.
  intros Hu Hp Hr Hnone Hlen Hspans. revert b.
  induction Hspans as [|[start end_] rest Hspan _ IH]; intros b; [done|].
  rewrite !loop_cons, Hu, Hp, Hr, Hnone, context_text_None,
    (context_text_large_radius _ _ _ _ Hspan Hlen). cbn zeta.
  destruct (if truthy _ then _ else _) as [found|e]; [|done].
  destruct (String.eqb (relevant_match self) "any").
  - destruct (negb found); [done | apply IH].
  - destruct (String.eqb (relevant_match self) "first"); [done | apply IH].
Qed.

(** A context range of at least the length of the text is the same as no
    bound: the matcher answers as the one with [context_range = None]. *)
Theorem large_radius_is_unbounded (self self' : t) (data : string) (inclusion : Pattern)
    (r : Z) :
  regex_pattern self' = regex_pattern self ->
  unwanted_regex_patterns self' = unwanted_regex_patterns self ->
  relevant_match self' = relevant_match self ->
  context_range self = Some r -> context_range self' = None ->
  len data <= r ->
  re_compile (regex_pattern self) = Ok inclusion ->
  Forall (Reference.span_in data) (Pattern_finditer inclusion data) ->
  (__call__ data self').1 = (__call__ data self).1.
Proof.
  intros Hpat Hu Hp Hr Hnone Hlen Hc Hspans.
  rewrite (call_compiled _ _ _ Hc), (call_compiled data self' inclusion) by (by rewrite Hpat).
  by apply (loop_large_radius _ _ _ _ _ r).
Qed.

End BinaryMatcherMore.

(** ** Construction from patterns *)

Section ConstructionMore.
Import RegexBinaryClassifierAgent.

(** A list of patterns builds the same matcher as the single string that
    joins them with [|], for the inclusion and for the exclusion patterns. *)
Lemma pattern_list_is_alternation (ps qs : list string) (range : option Z)
    (relevant : string) :
  __init__ (VList (VStr <$> ps)) (VList (VStr <$> qs)) range relevant =
    __init__ (VStr (String.concat "|" ps)) (VStr (String.concat "|" qs)) range relevant.
Proof.
  unfold __init__, _process_regex_patterns. by rewrite !str_join_strings.
Qed.

End ConstructionMore.

(** ** The Multi-Label Classifier: construction and failures *)

Section MultiLabelMore.
Context `{ReModule}.
Import RegexMultiLabelClassifierAgent.

Lemma build_spec items acc m :
  NoDup (dict_keys acc ++ dict_keys items) ->
  build items acc = Ok m <->
  exists new,
    m = (acc ++ new)%list
    /\ Forall2 (fun lk la => la.1 = lk.1 /\ RegexBinaryClassifierAgent.construct lk.2 = Ok la.2)
               items new.
Proof.
  revert acc; induction items as [|[label kw] items IH]; intros acc Hnd.
  - cbn [build]. split.
    + intros [= <-]. exists []. by rewrite app_nil_r.
    + intros (new & -> & ->%Forall2_nil_inv_l). by rewrite app_nil_r.
  - assert (label ∉ dict_keys acc) as Hfresh.
    { intros Hin. apply NoDup_app in Hnd as (_ & Hdis & _). apply (Hdis _ Hin). left. }
    assert (forall a, NoDup (dict_keys (acc ++ [(label, a)]) ++ dict_keys items)) as Hnd'.
    { intros a. unfold dict_keys in *. rewrite fmap_app, <- app_assoc. done. }
    cbn [build]. destruct (RegexBinaryClassifierAgent.construct kw) as [a|e] eqn:Hc; cbn.
    + rewrite dict_set_fresh by done. rewrite (IH _ (Hnd' a)). split.
      * intros (new & -> & Hnew). exists ((label, a) :: new).
        rewrite <- app_assoc. split; [done|]. by constructor.
      * intros (new & -> & Hnew).
        apply Forall2_cons_inv_l in Hnew as ([l' a'] & new' & [Hl Ha] & Hnew' & ->).
        simpl in Hl, Ha. subst l'. rewrite Hc in Ha. injection Ha as <-.
        exists new'. by rewrite <- app_assoc.
    + split; [done|]. intros (new & -> & Hnew).
      apply Forall2_cons_inv_l in Hnew as ([l' a'] & new' & [Hl Ha] & _).
      simpl in Ha. by rewrite Hc in Ha.
Qed.

(** The classifier dictionary has one entry per entry of the
    configuration, in the same order and under the same label, holding the
    matcher constructed from that entry's keyword arguments; and the
    construction succeeds exactly when every one of these constructions
    does. *)
Theorem multilabel_init_builds_each_label
    (kw : list (string * RegexBinaryClassifierAgent.kwargs)) (self : t) :
  NoDup (dict_keys kw) ->
  __init__ kw = Ok self <->
  Forall2 (fun lk la => la.1 = lk.1 /\ RegexBinaryClassifierAgent.construct lk.2 = Ok la.2)
          kw (regex_binary_classifier_per_label self).
Proof.
  intros Hnd. unfold __init__, _get_label_to_regex_binary_classifier_mapping.
  destruct self as [m]. cbn [regex_binary_classifier_per_label].
  destruct (build kw []) as [m'|e] eqn:Hb; cbn.
  - apply build_spec in Hb as (new & -> & Hnew); [|done]. cbn [app]. split.
    + by intros [= <-].
    + intros Hm. f_equal. f_equal.
      revert Hnew Hm. generalize kw new m. clear.
      induction kw as [|[l k] kw IH]; intros new m Hnew Hm.
      * apply Forall2_nil_inv_l in Hnew, Hm. by subst.
      * apply Forall2_cons_inv_l in Hnew as ([l1 a1] & new' & [Hl1 Ha1] & Hnew' & ->).
        apply Forall2_cons_inv_l in Hm as ([l2 a2] & m' & [Hl2 Ha2] & Hm' & ->).
        simpl in *. subst. rewrite Ha1 in Ha2. injection Ha2 as ->.
        f_equal. by apply (IH new' m').
  - split; [done|]. intros Hm.
    assert (build kw [] = Ok m) as Hb'; [|by rewrite Hb in Hb'].
    apply build_spec; [done|]. by exists m.
Qed.

Lemma build_first_failure pre label kw post acc e :
  Forall (fun lk => exists a, RegexBinaryClassifierAgent.construct lk.2 = Ok a) pre ->
  RegexBinaryClassifierAgent.construct kw = Raise e ->
  build (pre ++ (label, kw) :: post) acc = Raise e.
Proof.
  intros Hpre He. revert acc. induction Hpre as [|[l k] pre [a Ha] _ IH]; intros acc.
  - cbn. by rewrite He.
  - cbn [app build]. simpl in Ha. rewrite Ha. cbn. apply IH.
Qed.

(** The construction stops at the first label, in the order of the
    configuration, whose keyword arguments are rejected, and raises that
    error. *)
Theorem multilabel_init_first_failure
    (pre post : list (string * RegexBinaryClassifierAgent.kwargs)) (label : string)
    (kw : RegexBinaryClassifierAgent.kwargs) (e : exn) :
  Forall (fun lk => exists a, RegexBinaryClassifierAgent.construct lk.2 = Ok a) pre ->
  RegexBinaryClassifierAgent.construct kw = Raise e ->
  __init__ (pre ++ (label, kw) :: post) = Raise e.
Proof.
  intros Hpre He. unfold __init__, _get_label_to_regex_binary_classifier_mapping.
  by rewrite (build_first_failure _ _ _ _ _ _ Hpre He).
Qed.

Lemma call_items_first_failure data pre label c post labels e :
  Forall (fun lc => exists b, (RegexBinaryClassifierAgent.__call__ data lc.2).1 = Ok b) pre ->
  (RegexBinaryClassifierAgent.__call__ data c).1 = Raise e ->
  (call_items data (pre ++ (label, c) :: post) labels).1 = Raise e.
Proof.
  intros Hpre He. revert labels. induction Hpre as [|[l c0] pre [b Hb] _ IH]; intros labels.
  - cbn [app call_items].
    destruct (RegexBinaryClassifierAgent.__call__ data c) as [r c']. simpl in He. by subst.
  - cbn [app call_items]. simpl in Hb.
    destruct (RegexBinaryClassifierAgent.__call__ data c0) as [r c0']. simpl in Hb. subst r.
    specialize (IH (if b then (labels ++ [l])%list else labels)).
    by destruct (call_items data _ _) as [out rest'].
Qed.

(** A call raises the error of the first label, in the order of the
    dictionary, whose matcher raises on the text; the classifier is left as
    it was. *)
Theorem multilabel_call_first_failure (self : t) (data : string)
    (pre post : list (string * RegexBinaryClassifierAgent.t)) (label : string)
    (c : RegexBinaryClassifierAgent.t) (e : exn) :
  regex_binary_classifier_per_label self = (pre ++ (label, c) :: post)%list ->
  Forall (fun lc => exists b, (RegexBinaryClassifierAgent.__call__ data lc.2).1 = Ok b) pre ->
  (RegexBinaryClassifierAgent.__call__ data c).1 = Raise e ->
  __call__ data self = (Raise e, self).
Proof.
  intros Hitems Hpre He.
  pose proof (multilabel_call_frame data self) as Hf.
  pose proof (call_items_first_failure data pre label c post [] e Hpre He) as Hr.
  unfold __call__ in *. rewrite Hitems in *.
  destruct (call_items data _ _) as [out items']. simpl in *. by subst.
Qed.

End MultiLabelMore.

(** ** The Multi-Class Resolver: default priorities and exclusive classes *)

Section MultiClassMore.
Context `{ReModule}.
Import RegexMultiClassClassifierAgent.

Lemma multiclass_call_ok (self : t) (data : string) (res : list string) :
  (RegexMultiLabelClassifierAgent.__call__ data (regex_multilabel_classifier self)).1 = Ok res ->
  __call__ data self = (Ok (first_class (classes_priorities self) res), self).
Proof.
  intros Hml. pose proof (multiclass_call_frame data self) as Hf.
  unfold __call__, call_multilabel in *. unfold_method.
  destruct (RegexMultiLabelClassifierAgent.__call__ _ _) as [r ml'].
  simpl in Hml. subst r. simpl in *. by rewrite Hf.
Qed.

Lemma multiclass_call_Ok_inv (self : t) (data : string) (answer : option string) :
  (__call__ data self).1 = Ok answer ->
  exists res,
    (RegexMultiLabelClassifierAgent.__call__ data (regex_multilabel_classifier self)).1 = Ok res
    /\ answer = first_class (classes_priorities self) res.
Proof.
  intros Hcall.
  destruct (RegexMultiLabelClassifierAgent.__call__ data (regex_multilabel_classifier self)).1
    as [res|e] eqn:Hml.
  - exists res. split; [done|]. rewrite (multiclass_call_ok _ _ _ Hml) in Hcall.
    by injection Hcall as <-.
  - unfold __call__, call_multilabel in Hcall. unfold_method.
    destruct (RegexMultiLabelClassifierAgent.__call__ _ _) as [r ml'].
    simpl in Hml. by subst r.
Qed.

(** On a subsequence of the priorities the first priority label that is
    present is the head of the subsequence. *)
Lemma first_class_sublist (priorities res : list string) :
  NoDup priorities -> sublist res priorities -> first_class priorities res = head res.
Proof.
  intros Hnd Hsub. induction Hsub as [|x res priorities Hsub IH|x res priorities Hsub IH].
  - done.
  - cbn. by rewrite String.eqb_refl.
  - apply NoDup_cons in Hnd as [Hx Hnd]. cbn [first_class].
    assert (py_in x res = false) as ->; [|by apply IH].
    destruct (py_in x res) eqn:Hin; [|done].
    apply py_in_elem_of in Hin. destruct Hx. by eapply sublist_subseteq.
Qed.

Lemma call_items_labels data items labels out :
  (RegexMultiLabelClassifierAgent.call_items data items labels).1 = Ok out ->
  exists new, out = (labels ++ new)%list /\ sublist new (dict_keys items).
Proof.
  revert labels; induction items as [|[label c] items IH]; intros labels.
  - cbn. intros [= <-]. exists []. by rewrite app_nil_r.
  - cbn [RegexMultiLabelClassifierAgent.call_items].
    destruct (RegexBinaryClassifierAgent.__call__ data c) as [[b|e] c']; [|done].
    specialize (IH (if b then (labels ++ [label])%list else labels)).
    destruct (RegexMultiLabelClassifierAgent.call_items data items _) as [r rest'].
    cbn [fst] in *. intros Hr. destruct (IH Hr) as (new & -> & Hsub).
    change (dict_keys ((label, c) :: items)) with (label :: dict_keys items).
    destruct b.
    + exists (label :: new). rewrite <- app_assoc. split; [done|]. by constructor.
    + exists new. split; [done|]. by constructor.
Qed.

Lemma multilabel_call_sublist (ml : RegexMultiLabelClassifierAgent.t) (data : string)
    (res : list string) :
  (RegexMultiLabelClassifierAgent.__call__ data ml).1 = Ok res ->
  sublist res (dict_keys (RegexMultiLabelClassifierAgent.regex_binary_classifier_per_label ml)).
Proof.
  unfold RegexMultiLabelClassifierAgent.__call__.
  destruct (RegexMultiLabelClassifierAgent.call_items data _ []) as [out items'] eqn:Hci.
  cbn [fst]. intros ->.
  destruct (call_items_labels data
              (RegexMultiLabelClassifierAgent.regex_binary_classifier_per_label ml) [] res)
    as (new & Hnew & Hsub); [by rewrite Hci|].
  cbn [app] in Hnew. by subst.
Qed.

Lemma multiclass_init_inv kw priorities self :
  __init__ kw priorities = Ok self ->
  RegexMultiLabelClassifierAgent.__init__ kw = Ok (regex_multilabel_classifier self)
  /\ classes_priorities self = match priorities with None => dict_keys kw | Some l => l end.
Proof.
  unfold __init__. destruct (RegexMultiLabelClassifierAgent.__init__ kw) as [ml|e]; [|done].
  cbn. by intros [= <-].
Qed.

(** When [classes_priorities] is omitted, the resolver returns the first
    label, in the order of the configuration, whose matcher answers true:
    the head of the multi-label result, [None] when that is empty. *)
Theorem default_priorities_follow_configuration
    (kw : list (string * RegexBinaryClassifierAgent.kwargs)) (self : t) (data : string)
    (labels : list string) :
  __init__ kw None = Ok self ->
  NoDup (dict_keys kw) ->
  (RegexMultiLabelClassifierAgent.__call__ data (regex_multilabel_classifier self)).1
    = Ok labels ->
  __call__ data self = (Ok (head labels), self).
Proof.
  intros Hinit Hnd Hml. apply multiclass_init_inv in Hinit as [Hmlinit Hprios].
  rewrite (multiclass_call_ok _ _ _ Hml), Hprios. do 2 f_equal.
  apply first_class_sublist; [done|].
  rewrite <- (init_keys _ _ Hmlinit Hnd). by apply (multilabel_call_sublist _ data).
Qed.

Lemma first_class_singleton (priorities : list string) (c : string) :
  first_class priorities [c] = if bool_decide (c ∈ priorities) then Some c else None.
Proof.
  induction priorities as [|p priorities IH]; [done|].
  cbn [first_class py_in]. rewrite orb_false_r.
  destruct (String.eqb_spec c p) as [->|Hne].
  - rewrite bool_decide_true; [done | left].
  - rewrite IH, (bool_decide_ext (c ∈ p :: priorities) (c ∈ priorities)); [done|].
    rewrite elem_of_cons. naive_solver.
Qed.

(** When exactly one label matches, the order of the priority list does not
    matter: the resolver returns that label if the list contains it, and
    [None] otherwise (a matched label outside the list is dropped). *)
Theorem single_label_ignores_priority_order (self : t) (data : string) (c : string) :
  (RegexMultiLabelClassifierAgent.__call__ data (regex_multilabel_classifier self)).1
    = Ok [c] ->
  __call__ data self =
    (Ok (if bool_decide (c ∈ classes_priorities self) then Some c else None), self).
Proof.
  intros Hml. by rewrite (multiclass_call_ok _ _ _ Hml), first_class_singleton.
Qed.

(** The resolver never returns a label that is not both in the priority
    list and a label of the configuration. *)
Theorem resolver_returns_configured_priority_label
    (kw : list (string * RegexBinaryClassifierAgent.kwargs)) (priorities : option (list string))
    (self : t) (data : string) (c : string) :
  __init__ kw priorities = Ok self ->
  NoDup (dict_keys kw) ->
  (__call__ data self).1 = Ok (Some c) ->
  c ∈ classes_priorities self /\ c ∈ dict_keys kw.
Proof.
  intros Hinit Hnd Hcall. apply multiclass_init_inv in Hinit as [Hmlinit _].
  apply multiclass_call_Ok_inv in Hcall as (res & Hml & Hfc).
  symmetry in Hfc. apply first_class_Some in Hfc as (before & after & Hp & Hc & _).
  split.
  - rewrite Hp. apply elem_of_app. right. left.
  - rewrite <- (init_keys _ _ Hmlinit Hnd).
    eapply sublist_subseteq; [by apply (multilabel_call_sublist _ data) | done].
Qed.

End MultiClassMore.

(** ** The Fan-Out Executor: results by key, failures and submissions *)

Section FanOutMore.
Import MultiInputsAgentExecuter.

Lemma dict_get_Permutation {K V} `{EqDecision K} (l l' : list (K * V)) (k : K) :
  NoDup (dict_keys l) -> l ≡ₚ l' -> dict_get l k = dict_get l' k.
Proof.
  intros Hnd Hperm.
  assert (NoDup (dict_keys l')) as Hnd' by (unfold dict_keys in *; by rewrite <- Hperm).
  destruct (dict_get l' k) as [v|] eqn:Hg'.
  - apply dict_get_elem_of; [done|]. rewrite Hperm. by apply dict_get_elem_of.
  - destruct (dict_get l k) as [v|] eqn:Hg; [|done].
    apply dict_get_elem_of in Hg; [|done]. rewrite Hperm in Hg.
    apply dict_get_elem_of in Hg; [|done]. congruence.
Qed.

Lemma returns_lookup (a : agent_object) (d rs : list (pykey * pyval)) (k : pykey) (v : pyval) :
  returns a d rs -> (k, v) ∈ d ->
  exists kw r, star_star v = Ok kw /\ a kw = Ok r /\ (k, r) ∈ rs.
Proof.
  induction 1 as [|[k0 v0] [k1 r1] d rs (Hk & kw & Hkw & Hr) _ IH]; [by intros ?%elem_of_nil|].
  simpl in Hk, Hkw, Hr. subst k1. intros [[= -> ->]|Hin]%elem_of_cons.
  - exists kw, r1. repeat split; [done..|left].
  - destruct (IH Hin) as (kw' & r & ? & ? & ?). exists kw', r. repeat split; [done..|by right].
Qed.

(** For a mapping whose tasks all return, looking a key up in the result
    gives what the agent returned on the value of that key, whatever the
    order in which the tasks complete; a key that is not in the inputs is not
    in the result. *)
Theorem mapping_results_by_key (self : t) (order : list nat)
    (kwargs : list (string * pyval)) (a : agent_object) (d rs : list (pykey * pyval)) :
  agent self kwargs = Ok a ->
  NoDup (dict_keys d) ->
  returns a d rs ->
  exists results,
    (__call__ self order (VDict d) kwargs).1 = Ok (VDict results)
    /\ (forall k v, (k, v) ∈ d ->
          exists kw r, star_star v = Ok kw /\ a kw = Ok r /\ dict_get results k = Some r)
    /\ (forall k, k ∉ dict_keys d -> dict_get results k = None).
Proof.
  intros Ha Hnd Hrs.
  destruct (keyed_results self order kwargs a d rs Ha Hnd Hrs) as (results & Hres & Hperm).
  assert (NoDup (dict_keys rs)) as Hndrs by (by rewrite (returns_keys _ _ _ Hrs)).
  assert (NoDup (dict_keys results)) as Hndres
    by (unfold dict_keys in *; by rewrite Hperm).
  exists results. split; [|split].
  - unfold __call__. cbn [isinstance_dict orb items isinstance_list]. rewrite Ha.
    destruct (submit_all a d) as [out trace]. cbn [fst] in *.
    destruct out as [futures|e]; [|done]. cbn in Hres |- *. by rewrite Hres.
  - intros k v Hin. destruct (returns_lookup _ _ _ _ _ Hrs Hin) as (kw & r & Hkw & Hr & Hinr).
    exists kw, r. repeat split; [done..|].
    apply dict_get_elem_of; [done|]. by rewrite Hperm.
  - intros k Hk. destruct (dict_get results k) as [r|] eqn:Hg; [|done].
    apply dict_get_elem_of in Hg; [|done]. destruct Hk.
    rewrite <- (returns_keys _ _ _ Hrs). unfold dict_keys. rewrite <- Hperm.
    by apply (list_elem_of_fmap_2 fst _ (k, r)).
Qed.

Lemma submit_all_outcomes (a : agent_object) (d : list (pykey * pyval))
    (os : list (pykey * result pyval)) :
  Forall2 (fun kv ko => ko.1 = kv.1 /\ exists kw, star_star kv.2 = Ok kw /\ ko.2 = a kw) d os ->
  (submit_all a d).1 = Ok ((fun ko => (ko.2, ko.1)) <$> os).
Proof.
  induction 1 as [|[k v] [k' o] d os (Hk & kw & Hkw & Ho) _ IH]; [done|].
  simpl in Hk, Hkw, Ho. subst k' o. cbn [submit_all]. rewrite Hkw.
  destruct (submit_all a d) as [out trace]. simpl in IH. by subst out.
Qed.

Lemma collect_first_failure (before rest : list future) (k : pykey) (e : exn)
    (results : list (pykey * pyval)) :
  Forall (fun f : future => exists r, f.1 = Ok r) before ->
  collect (before ++ (Raise e, k) :: rest) results = Raise e.
Proof.
  intros Hbefore. revert results.
  induction Hbefore as [|[o k'] before [r Hr] _ IH]; intros results; [done|].
  simpl in Hr. subst o. cbn. apply IH.
Qed.

(** When tasks fail, the call raises the exception of the failing task
    that completes first: the one before which, in the order of completion,
    every task returned. *)
Theorem first_completed_failure_is_raised (self : t) (order : list nat)
    (kwargs : list (string * pyval)) (a : agent_object) (d : list (pykey * pyval))
    (os before rest : list (pykey * result pyval)) (k : pykey) (e : exn) :
  agent self kwargs = Ok a ->
  Forall2 (fun kv ko => ko.1 = kv.1 /\ exists kw, star_star kv.2 = Ok kw /\ ko.2 = a kw) d os ->
  as_completed order os = (before ++ (k, Raise e) :: rest)%list ->
  Forall (fun ko => exists r, ko.2 = Ok r) before ->
  (__call__ self order (VDict d) kwargs).1 = Raise e.
Proof.
  intros Ha Hos Hdone Hbefore.
  unfold __call__. cbn [isinstance_dict orb items isinstance_list]. rewrite Ha.
  pose proof (submit_all_outcomes _ _ _ Hos) as Hsub.
  destruct (submit_all a d) as [out trace]. cbn [fst] in *. subst out. cbn.
  rewrite as_completed_fmap, Hdone, fmap_app, fmap_cons. cbn [fst snd].
  rewrite collect_first_failure; [done|].
  apply Forall_fmap. eapply Forall_impl; [exact Hbefore|].
  intros [k' o] [r Hr]. by exists r.
Qed.

Lemma submit_all_trace (a : agent_object) (d : list (pykey * pyval))
    (ks : list (pykey * list (string * pyval))) :
  Forall2 (fun kv kk => kk.1 = kv.1 /\ star_star kv.2 = Ok kk.2) d ks ->
  (submit_all a d).2 = (fun kk => Submit kk.1 kk.2) <$> ks.
Proof.
  induction 1 as [|[k v] [k' kw] d ks [Hk Hkw] _ IH]; [done|].
  simpl in Hk, Hkw. subst k'. cbn [submit_all]. rewrite Hkw.
  destruct (submit_all a d) as [out trace]. simpl in IH. by subst trace.
Qed.

(** On a mapping whose values all unpack, the agent is constructed once
    and then every item is submitted exactly once, in the order of the
    inputs, whether tasks fail or not and whatever the order of completion:
    a failure cancels nothing and nothing is retried. *)
Theorem every_item_is_submitted_once (self : t) (order : list nat)
    (kwargs : list (string * pyval)) (a : agent_object) (d : list (pykey * pyval))
    (ks : list (pykey * list (string * pyval))) :
  agent self kwargs = Ok a ->
  Forall2 (fun kv kk => kk.1 = kv.1 /\ star_star kv.2 = Ok kk.2) d ks ->
  (__call__ self order (VDict d) kwargs).2 =
    Construct kwargs :: ((fun kk => Submit kk.1 kk.2) <$> ks).
Proof.
  intros Ha Hks.
  unfold __call__. cbn [isinstance_dict orb items isinstance_list]. rewrite Ha.
  pose proof (submit_all_trace a _ _ Hks) as Htrace.
  destruct (submit_all a d) as [out trace]. cbn [snd] in *. by subst.
Qed.

Lemma submit_all_unpack_failure (a : agent_object) (pre post : list (pykey * pyval))
    (ks : list (pykey * list (string * pyval))) (k : pykey) (v : pyval) (e : exn) :
  Forall2 (fun kv kk => kk.1 = kv.1 /\ star_star kv.2 = Ok kk.2) pre ks ->
  star_star v = Raise e ->
  submit_all a (pre ++ (k, v) :: post) = (Raise e, (fun kk => Submit kk.1 kk.2) <$> ks).
Proof.
  intros Hks He. induction Hks as [|[k0 v0] [k' kw] pre ks [Hk Hkw] _ IH].
  - cbn. by rewrite He.
  - simpl in Hk, Hkw. subst k'. cbn [app submit_all]. rewrite Hkw, IH. done.
Qed.

(** A value that cannot be unpacked into keyword arguments makes the call
    raise at that item: the items before it have been submitted, the items
    after it are not, and no result is returned for any of them. *)
Theorem unpack_failure_stops_submission (self : t) (order : list nat)
    (kwargs : list (string * pyval)) (a : agent_object) (pre post : list (pykey * pyval))
    (ks : list (pykey * list (string * pyval))) (k : pykey) (v : pyval) (e : exn) :
  agent self kwargs = Ok a ->
  Forall2 (fun kv kk => kk.1 = kv.1 /\ star_star kv.2 = Ok kk.2) pre ks ->
  star_star v = Raise e ->
  __call__ self order (VDict (pre ++ (k, v) :: post)) kwargs =
    (Raise e, Construct kwargs :: ((fun kk => Submit kk.1 kk.2) <$> ks)).
Proof.
  intros Ha Hks He.
  unfold __call__. cbn [isinstance_dict orb items isinstance_list]. rewrite Ha.
  by rewrite (submit_all_unpack_failure a pre post ks k v e Hks He).
Qed.

End FanOutMore.

(** ** [load_agent] *)

Section AgentLoader.
Import agent_loader.

Lemma rsplit_dot_dot_free (s : string) : dot_free s = true -> rsplit_dot s = None.
Proof.
  induction s as [|c s IH]; [done|]. cbn [dot_free rsplit_dot].
  intros [Hc Hs]%andb_true_iff. rewrite (IH Hs).
  by destruct (Ascii.eqb c ".").
Qed.

Lemma rsplit_dot_app (module_name class_name : string) :
  dot_free class_name = true ->
  rsplit_dot (module_name +:+ "." +:+ class_name) = Some (module_name, class_name).
Proof.
  intros Hc. induction module_name as [|c m IH].
  - change (rsplit_dot (String "." class_name) = Some ("", class_name)).
    cbn [rsplit_dot]. by rewrite (rsplit_dot_dot_free _ Hc).
  - change (rsplit_dot (String c (m +:+ "." +:+ class_name))
            = Some (String c m, class_name)).
    cbn [rsplit_dot]. by rewrite IH.
Qed.

Lemma rsplit_dot_None (s : string) : rsplit_dot s = None -> dot_free s = true.
Proof.
  induction s as [|c s IH]; [done|]. cbn [rsplit_dot dot_free].
  destruct (rsplit_dot s) as [[b a]|]; [done|].
  destruct (Ascii.eqb c "."); [done|]. intros _. by rewrite IH.
Qed.

Lemma rsplit_dot_Some (s before after : string) :
  rsplit_dot s = Some (before, after) ->
  s = before +:+ "." +:+ after /\ dot_free after = true.
Proof.
  revert before; induction s as [|c s IH]; intros before; [done|].
  cbn [rsplit_dot]. destruct (rsplit_dot s) as [[b a]|] eqn:Hs.
  - intros [= <- <-]. destruct (IH b eq_refl) as [-> Ha]. done.
  - destruct (Ascii.eqb_spec c "."); [|done]. intros [= <- <-]. subst c.
    split; [done|]. by apply rsplit_dot_None.
Qed.

(** A path is split at its last dot: with a class name that has no dot,
    the path [module_name.class_name] imports [module_name], which may itself
    have dots, and takes the attribute [class_name] of it. *)
Lemma load_agent_dotted `{Importlib module object}
    (module_name class_name : string) :
  dot_free class_name = true ->
  load_agent (module_name +:+ "." +:+ class_name) =
    (m ← import_module module_name; getattr m class_name).
Proof.
  intros Hc. unfold load_agent, rsplit1. rewrite (rsplit_dot_app _ _ Hc). cbn.
  destruct (import_module module_name) as [m|e]; [|done]. cbn.
  by destruct (getattr m class_name).
Qed.

(** A path without a dot raises [ValueError] at the unpacking of the split,
    whatever the modules that could be imported. *)
Lemma load_agent_undotted `{Importlib module object} (agent_path : string) :
  dot_free agent_path = true ->
  load_agent agent_path =
    Throw (Builtin (ValueError "not enough values to unpack (expected 2, got 1)")).
Proof.
  intros Hp. unfold load_agent, rsplit1. by rewrite (rsplit_dot_dot_free _ Hp).
Qed.

(** The split loses nothing: whenever [load_agent] gets as far as the
    import, the module name and the class name it uses, joined by a dot, are
    the path, and the class name has no dot. *)
Lemma rsplit1_round_trip (agent_path : string) :
  match rsplit1 agent_path with
  | [module_name; class_name] =>
      agent_path = module_name +:+ "." +:+ class_name /\ dot_free class_name = true
  | parts => parts = [agent_path] /\ dot_free agent_path = true
  end.
Proof.
  unfold rsplit1. destruct (rsplit_dot agent_path) as [[b a]|] eqn:Hs.
  - by apply rsplit_dot_Some.
  - split; [done|]. by apply rsplit_dot_None.
Qed.

(** A path is split at its last dot.  A path without a dot raises
    [ValueError] at the unpacking of the split, whatever could be imported.
    Every other path is [module_name.class_name] for a class name without a
    dot and a module name that may have dots: the module of that name is
    imported and its attribute of the class name is returned, with the
    exceptions of the import and of the attribute access passed on. *)
Theorem load_agent_resolution `{Importlib module object} (agent_path : string) :
  (dot_free agent_path = true
   /\ load_agent agent_path =
        Throw (Builtin (ValueError "not enough values to unpack (expected 2, got 1)")))
  \/ (exists module_name class_name,
        agent_path = module_name +:+ "." +:+ class_name
        /\ dot_free class_name = true
        /\ load_agent agent_path = (m ← import_module module_name; getattr m class_name)).
Proof.
  pose proof (rsplit1_round_trip agent_path) as Hsplit. unfold rsplit1 in Hsplit.
  destruct (rsplit_dot agent_path) as [[module_name class_name]|].
  - right. destruct Hsplit as [-> Hc]. exists module_name, class_name.
    split; [done|]. split; [done|]. by apply load_agent_dotted.
  - left. destruct Hsplit as [_ Hp]. split; [done|]. by apply load_agent_undotted.
Qed.

(** With the classes kept in a table of modules, the executor built from
    [module_name.class_name] holds the class of that name in that module; a
    module that is not in the table gives [ModuleNotFoundError]. *)
Lemma executer_init_from_table
    (modules : gmap string (gmap string
       (list (string * pyval) -> result MultiInputsAgentExecuter.agent_object)))
    (module_name class_name : string) :
  dot_free class_name = true ->
  @MultiInputsAgentExecuter__init__ _ (table_importlib modules)
      (module_name +:+ "." +:+ class_name) =
    match modules !! module_name with
    | None => Throw (ModuleNotFoundError ("No module named '" +:+ module_name +:+ "'"))
    | Some m =>
        match m !! class_name with
        | None =>
            Throw (AttributeError ("module has no attribute '" +:+ class_name +:+ "'"))
        | Some cls => Return {| MultiInputsAgentExecuter.agent := cls |}
        end
    end.
Proof.
  intros Hc. unfold MultiInputsAgentExecuter__init__.
  rewrite (load_agent_dotted (H := table_importlib modules) _ _ Hc). cbn.
  destruct (modules !! module_name) as [m|]; [|done]. cbn.
  by destruct (m !! class_name).
Qed.

End AgentLoader.

(** ** [PDFOCRAgent]: the pages requested from the service *)

Section FormatPages.
Import PDFOCRAgent.

Lemma valid_pages_elem_of (pages : list Z) (total_pages p : Z) :
  p ∈ valid_pages pages total_pages <-> p ∈ pages /\ 1 <= p <= total_pages.
Proof.
  unfold valid_pages. rewrite merge_sort_Permutation, elem_of_elements,
    elem_of_list_to_set, list_elem_of_filter. tauto.
Qed.

Lemma StronglySorted_le_lt (l : list Z) :
  StronglySorted Z.le l -> NoDup l -> StronglySorted Z.lt l.
Proof.
  induction 1 as [|x l Hl IH Hx]; intros Hnd; [constructor|].
  apply NoDup_cons in Hnd as [Hnin Hnd]. constructor; [by apply IH|].
  apply Forall_forall. intros y Hy.
  assert (x <= y) by (by eapply Forall_forall in Hx).
  assert (x <> y) by (by intros ->). lia.
Qed.

Lemma valid_pages_sorted (pages : list Z) (total_pages : Z) :
  StronglySorted Z.lt (valid_pages pages total_pages).
Proof.
  apply StronglySorted_le_lt.
  - apply StronglySorted_merge_sort; apply _.
  - unfold valid_pages. rewrite merge_sort_Permutation. apply NoDup_elements.
Qed.

(** The pages that count are the requested pages between 1 and the page
    count of the document, each once, in increasing order: pages out of range
    are dropped, and neither repetitions nor the order of the request
    matter. *)
Lemma valid_pages_sorted_distinct_in_range (pages : list Z) (total_pages : Z) :
  StronglySorted Z.lt (valid_pages pages total_pages)
  /\ forall p, p ∈ valid_pages pages total_pages <-> p ∈ pages /\ 1 <= p <= total_pages.
Proof.
  split; [apply valid_pages_sorted|]. intros p. apply valid_pages_elem_of.
Qed.

(** The loop closes ranges that, expanded, are the pages it has seen. *)
Lemma format_loop_ranges (rest : list Z) (range_start range_end : Z)
    (formatted_pages : list string) :
  range_start <= range_end ->
  StronglySorted Z.lt (range_end :: rest) ->
  exists (r0 : Z * Z) (ranges : list (Z * Z)),
    format_loop rest range_start range_end formatted_pages =
      (formatted_pages ++ ((fun r => format_range r.1 r.2) <$> r0 :: ranges))%list
    /\ r0.1 = range_start
    /\ (r0 :: ranges) ≫= (fun r => seqZ r.1 (r.2 - r.1 + 1)) =
         (seqZ range_start (range_end - range_start + 1) ++ rest)%list
    /\ Forall (fun r => r.1 <= r.2) (r0 :: ranges)
    /\ Sorted (fun r r' => r.2 + 1 < r'.1) (r0 :: ranges).
Proof.
  revert range_start range_end formatted_pages.
  induction rest as [|page rest IH]; intros s e acc Hse Hsorted.
  - exists (s, e), []. cbn [format_loop].
    split; [done|]. split; [done|]. split; [cbn; by rewrite app_nil_r|].
    split; by repeat constructor.
  - apply StronglySorted_inv in Hsorted as [Hrest Hlt].
    apply Forall_cons in Hlt as [Hpage _]. cbn [format_loop].
    destruct (Z.eqb_spec page (e + 1)) as [->|Hne].
    + destruct (IH s (e + 1) acc) as (r0 & ranges & Hloop & Hr0 & Hexp & Hle & Hgap);
        [lia|done|].
      exists r0, ranges. split; [done|]. split; [done|]. split; [|done].
      rewrite Hexp. replace (e + 1 - s + 1) with ((e - s + 1) + 1) by lia.
      rewrite seqZ_app by lia. rewrite <- app_assoc.
      replace (s + (e - s + 1)) with (e + 1) by lia. done.
    + destruct (IH page page (acc ++ [format_range s e])%list)
        as (r0 & ranges & Hloop & Hr0 & Hexp & Hle & Hgap); [lia|done|].
      exists (s, e), (r0 :: ranges). split; [|split; [done|split; [|split]]].
      * rewrite Hloop, <- app_assoc. done.
      * rewrite bind_cons, Hexp. cbn [fst snd].
        replace (page - page + 1) with 1 by lia. done.
      * by constructor.
      * constructor; [done|]. constructor. cbn. lia.
Qed.

(** The text sent to the service is a comma-separated list of ranges
    [a-b] (or [a] alone when [a = b]) that, expanded, are exactly the valid
    pages in increasing order; every range is not empty, and between two
    consecutive ranges at least one page is left out, so that no two ranges
    could be merged. *)
Theorem format_pages_ranges (pages : list Z) (total_pages : Z) :
  exists ranges : list (Z * Z),
    _format_pages pages total_pages =
      String.concat "," ((fun r => format_range r.1 r.2) <$> ranges)
    /\ ranges ≫= (fun r => seqZ r.1 (r.2 - r.1 + 1)) = valid_pages pages total_pages
    /\ Forall (fun r => r.1 <= r.2) ranges
    /\ Sorted (fun r r' => r.2 + 1 < r'.1) ranges.
Proof.
  unfold _format_pages. pose proof (valid_pages_sorted pages total_pages) as Hsorted.
  destruct (valid_pages pages total_pages) as [|first_page rest].
  - exists []. split; [done|]. split; [done|]. split; constructor.
  - destruct (format_loop_ranges rest first_page first_page [])
      as (r0 & ranges & Hloop & Hr0 & Hexp & Hle & Hgap); [lia|done|].
    exists (r0 :: ranges). rewrite Hloop. split; [done|]. split; [|done].
    rewrite Hexp. replace (first_page - first_page + 1) with 1 by lia. done.
Qed.

(** The text depends only on which pages of the document are requested:
    two requests with the same valid pages, in whatever order and with
    whatever repetitions and out-of-range pages, give the same text. *)
Theorem format_pages_same_for_same_page_set (pages pages' : list Z) (total_pages : Z) :
  (forall p, 1 <= p <= total_pages -> p ∈ pages <-> p ∈ pages') ->
  _format_pages pages total_pages = _format_pages pages' total_pages.
Proof.
  intros Hsame. unfold _format_pages.
  assert (valid_pages pages total_pages = valid_pages pages' total_pages) as ->; [|done].
  unfold valid_pages. do 2 f_equal. apply set_eq. intros p.
  rewrite !elem_of_list_to_set, !list_elem_of_filter. specialize (Hsame p). tauto.
Qed.

End FormatPages.

Section FormatPagesEmpty.
Import PDFOCRAgent.

Lemma pretty_N_go_length (x : N) (s : string) :
  (String.length s <= String.length (pretty_N_go x s))%nat.
Proof.
  revert s. induction (N.lt_wf_0 x) as [x _ IH]; intros s.
  assert (x = 0 \/ 0 < x)%N as [->|Hx] by lia; [by rewrite pretty_N_go_0|].
  rewrite pretty_N_go_step by done.
  etrans; [|apply IH; by apply N.div_lt]. simpl. lia.
Qed.

Lemma pretty_Z_nonempty (z : Z) : pretty z <> "".
Proof.
  assert (forall p : positive, pretty (N.pos p) <> "") as Hpos.
  { intros p Hp. unfold pretty, pretty_N in Hp.
    rewrite decide_False in Hp by done. rewrite pretty_N_go_step in Hp by lia.
    pose proof (pretty_N_go_length (N.pos p `div` 10)
                  (String (pretty_N_char (N.pos p `mod` 10)) "")) as Hlen.
    rewrite Hp in Hlen. simpl in Hlen. lia. }
  destruct z as [|p|p]; [done|apply Hpos|done].
Qed.

Lemma format_range_nonempty (range_start range_end : Z) :
  format_range range_start range_end <> "".
Proof.
  unfold format_range. destruct (range_start =? range_end); [apply pretty_Z_nonempty|].
  pose proof (pretty_Z_nonempty range_start). by destruct (pretty range_start).
Qed.

Lemma concat_nonempty (sep x : string) (l : list string) :
  x <> "" -> String.concat sep (x :: l) <> "".
Proof. intros Hx. cbn [String.concat]. destruct l; [done|]. by destruct x. Qed.

(** The text sent to the service is empty, which the service takes as a
    request for all pages, exactly when no requested page is a page of the
    document: for an empty request, and also for a request of out-of-range
    pages only. *)
Theorem format_pages_empty_iff (pages : list Z) (total_pages : Z) :
  _format_pages pages total_pages = "" <->
  forall p, p ∈ pages -> ~ (1 <= p <= total_pages).
Proof.
  unfold _format_pages. pose proof (valid_pages_sorted pages total_pages) as Hsorted.
  pose proof (valid_pages_elem_of pages total_pages) as Helem.
  destruct (valid_pages pages total_pages) as [|first_page rest].
  - split; [|done]. intros _ p Hp Hrange.
    by apply (elem_of_nil p), Helem.
  - split.
    + destruct (format_loop_ranges rest first_page first_page [])
        as (r0 & ranges & Hloop & _); [lia|done|].
      rewrite Hloop. cbn [app fmap list_fmap]. intros Hempty.
      by destruct (concat_nonempty "," _ _ (format_range_nonempty r0.1 r0.2) Hempty).
    + intros Hnone. destruct (Helem first_page) as [[Hin Hrange] _]; [left|].
      by destruct (Hnone _ Hin).
Qed.

Lemma format_loop_run (n : nat) (range_start range_end : Z) (formatted_pages : list string) :
  format_loop (seqZ (range_end + 1) (Z.of_nat n)) range_start range_end formatted_pages =
    (formatted_pages ++ [format_range range_start (range_end + Z.of_nat n)])%list.
Proof.
  revert range_end; induction n as [|n IH]; intros e.
  - cbn. by rewrite Z.add_0_r.
  - rewrite seqZ_cons by lia. cbn [format_loop]. rewrite Z.eqb_refl.
    replace (Z.pred (Z.of_nat (S n))) with (Z.of_nat n) by lia.
    replace (Z.succ (e + 1)) with ((e + 1) + 1) by lia.
    rewrite IH. do 3 f_equal. lia.
Qed.

Lemma StronglySorted_seqZ (m len : Z) : StronglySorted Z.le (seqZ m len).
Proof.
  destruct (Z.le_gt_cases len 0) as [Hle|Hgt]; [rewrite seqZ_nil by done; constructor|].
  replace len with (Z.of_nat (Z.to_nat len)) by lia. generalize (Z.to_nat len) as n.
  clear. intros n. revert m. induction n as [|n IH]; intros m; [constructor|].
  rewrite seqZ_cons by lia. replace (Z.pred (Z.of_nat (S n))) with (Z.of_nat n) by lia.
  constructor; [apply IH|]. apply Forall_forall. intros p Hp.
  apply elem_of_seqZ in Hp. lia.
Qed.

(** A request whose valid pages are exactly the pages from [a] to [b] is
    sent as the single range [a-b], or as [a] alone when [a = b]. *)
Lemma format_pages_contiguous (pages : list Z) (total_pages a b : Z) :
  a <= b ->
  (forall p, p ∈ pages /\ 1 <= p <= total_pages <-> a <= p <= b) ->
  _format_pages pages total_pages = format_range a b.
Proof.
  intros Hab Hrun. unfold _format_pages.
  assert (valid_pages pages total_pages = seqZ a (b - a + 1)) as ->.
  { apply (StronglySorted_unique Z.le).
    - apply StronglySorted_merge_sort; apply _.
    - apply StronglySorted_seqZ.
    - apply NoDup_Permutation.
      + unfold valid_pages. rewrite merge_sort_Permutation. apply NoDup_elements.
      + apply NoDup_seqZ.
      + intros p. rewrite valid_pages_elem_of, elem_of_seqZ, Hrun. lia. }
  rewrite seqZ_cons by lia.
  replace (Z.pred (b - a + 1)) with (Z.of_nat (Z.to_nat (b - a))) by lia.
  replace (Z.succ a) with (a + 1) by lia.
  rewrite format_loop_run. cbn. f_equal. lia.
Qed.

End FormatPagesEmpty.

(** ** [PDFOCRAgent]: the attempts of the analysis *)

Section AnalyzeDocument.
Import PDFOCRAgent.
Context {E : Type}.
Variable responses : nat -> E + AnalyzeResult.
Variable read_pdf : string -> outcome (string * Z).
Implicit Types (self : t) (pdf_bytes pages_str : string).

Lemma attempts_first_success self pdf_bytes pages_str (result : AnalyzeResult)
    (d k j fuel : nat) :
  (k = j + d)%nat -> (d < fuel)%nat ->
  Z.of_nat k < max_attempts self ->
  (forall i, (j <= i < k)%nat -> exists e, responses i = inl e) ->
  responses k = inr result ->
  attempts responses fuel self pdf_bytes pages_str (Z.of_nat j) =
    Some (Returned result,
          mjoin (replicate d [Analyze (model_name self) pdf_bytes pages_str; Sleep 5])
            ++ [Analyze (model_name self) pdf_bytes pages_str])%list.
Proof.
  revert j fuel; induction d as [|d IH]; intros j fuel Hk Hfuel Hmax Hfail Hok;
    (destruct fuel as [|fuel]; [lia|]); cbn [attempts];
    (destruct (Z.ltb_spec (Z.of_nat j) (max_attempts self)); [|lia]);
    rewrite Nat2Z.id.
  - replace j with k by lia. by rewrite Hok.
  - destruct (Hfail j) as [e He]; [lia|]. rewrite He.
    destruct (Z.ltb_spec (Z.of_nat j + 1) (max_attempts self)); [|lia].
    replace (Z.of_nat j + 1) with (Z.of_nat (S j)) by lia.
    rewrite (IH (S j) fuel); [done|lia|lia|done| |done].
    intros i Hi. apply Hfail. lia.
Qed.

(** When the service fails on its first [k] requests and answers the next
    one, with [k] below [max_attempts], the analysis returns that answer
    after [k + 1] identical requests, with a sleep of 5 seconds after each
    failure. *)
Theorem analyze_returns_first_success self pdf_bytes pages_str (result : AnalyzeResult)
    (k : nat) :
  Z.of_nat k < max_attempts self ->
  (forall i, (i < k)%nat -> exists e, responses i = inl e) ->
  responses k = inr result ->
  _analyze_document responses self pdf_bytes pages_str =
    Some (Returned result,
          mjoin (replicate k [Analyze (model_name self) pdf_bytes pages_str; Sleep 5])
            ++ [Analyze (model_name self) pdf_bytes pages_str])%list.
Proof.
  intros Hmax Hfail Hok. unfold _analyze_document.
  apply (attempts_first_success _ _ _ _ k k 0); [done|lia|done| |done].
  intros i Hi. apply Hfail. lia.
Qed.

Lemma attempts_all_fail self pdf_bytes pages_str (errors : nat -> E) (d n j fuel : nat) :
  (n = j + d)%nat -> (d < fuel)%nat ->
  max_attempts self = Z.of_nat (S n) ->
  (forall i, (j <= i <= n)%nat -> responses i = inl (errors i)) ->
  attempts responses fuel self pdf_bytes pages_str (Z.of_nat j) =
    Some (Raised (errors n),
          mjoin (replicate d [Analyze (model_name self) pdf_bytes pages_str; Sleep 5])
            ++ [Analyze (model_name self) pdf_bytes pages_str])%list.
Proof.
  revert j fuel; induction d as [|d IH]; intros j fuel Hn Hfuel Hmax Hfail;
    (destruct fuel as [|fuel]; [lia|]); cbn [attempts];
    (destruct (Z.ltb_spec (Z.of_nat j) (max_attempts self)); [|lia]);
    rewrite Nat2Z.id, (Hfail j) by lia.
  - destruct (Z.ltb_spec (Z.of_nat j + 1) (max_attempts self)); [lia|].
    by replace j with n by lia.
  - destruct (Z.ltb_spec (Z.of_nat j + 1) (max_attempts self)); [|lia].
    replace (Z.of_nat j + 1) with (Z.of_nat (S j)) by lia.
    rewrite (IH (S j) fuel); [done|lia|lia|done|].
    intros i Hi. apply Hfail. lia.
Qed.

(** When the service fails on each of its first [max_attempts] requests
    (at least one), the analysis raises the exception of the last of them,
    after exactly [max_attempts] requests and a sleep of 5 seconds between
    two of them, none after the last. *)
Theorem analyze_raises_last_error self pdf_bytes pages_str (errors : nat -> E) (n : nat) :
  max_attempts self = Z.of_nat (S n) ->
  (forall i, (i <= n)%nat -> responses i = inl (errors i)) ->
  _analyze_document responses self pdf_bytes pages_str =
    Some (Raised (errors n),
          mjoin (replicate n [Analyze (model_name self) pdf_bytes pages_str; Sleep 5])
            ++ [Analyze (model_name self) pdf_bytes pages_str])%list.
Proof.
  intros Hmax Hfail. unfold _analyze_document. rewrite Hmax, Nat2Z.id.
  apply (attempts_all_fail _ _ _ _ n n 0); [done|lia|done|].
  intros i Hi. apply Hfail. lia.
Qed.

Lemma attempts_bounded self pdf_bytes pages_str (fuel : nat) (attempt : Z) :
  attempt < max_attempts self ->
  (Z.to_nat (max_attempts self - attempt) <= fuel)%nat ->
  exists out trace,
    attempts responses fuel self pdf_bytes pages_str attempt = Some (out, trace)
    /\ (1 <= requests trace <= Z.to_nat (max_attempts self - attempt))%nat
    /\ slept trace = 5 * (Z.of_nat (requests trace) - 1)
    /\ Forall (fun ev => ev = Analyze (model_name self) pdf_bytes pages_str \/ ev = Sleep 5)
              trace
    /\ out <> ReturnedNone.
Proof.
  revert attempt; induction fuel as [|fuel IH]; intros attempt Hlt Hfuel; [lia|].
  cbn [attempts]. destruct (Z.ltb_spec attempt (max_attempts self)); [|lia].
  destruct (responses (Z.to_nat attempt)) as [e|result].
  - destruct (Z.ltb_spec (attempt + 1) (max_attempts self)) as [Hlt'|Hge'].
    + destruct (IH (attempt + 1)) as (out & trace & -> & Hreq & Hslept & Hall & Hnone);
        [done|lia|].
      exists out, (Analyze (model_name self) pdf_bytes pages_str :: Sleep 5 :: trace).
      split; [done|]. cbn [requests slept]. split; [lia|]. split; [lia|]. split; [|done].
      constructor; [by left|]. constructor; [by right|done].
    + exists (Raised e), [Analyze (model_name self) pdf_bytes pages_str].
      split; [done|]. cbn [requests slept]. split; [lia|]. split; [lia|]. split; [|done].
      constructor; [by left|constructor].
  - exists (Returned result), [Analyze (model_name self) pdf_bytes pages_str].
    split; [done|]. cbn [requests slept]. split; [lia|]. split; [lia|]. split; [|done].
    constructor; [by left|constructor].
Qed.

Lemma analyze_no_attempts self pdf_bytes pages_str :
  max_attempts self <= 0 ->
  _analyze_document responses self pdf_bytes pages_str = Some (ReturnedNone, []).
Proof.
  intros Hmax. unfold _analyze_document.
  replace (Z.to_nat (max_attempts self)) with 0%nat by lia. cbn [attempts].
  destruct (Z.ltb_spec 0 (max_attempts self)); [lia|done].
Qed.


(** With [max_attempts] not positive, a call on a readable file fails with
    [AttributeError] (the analysis has returned [None]) and the service has
    not been asked. *)
Lemma call_without_attempts_fails self (pdf_path pdf_bytes : string) (total : Z)
    (pages : list Z) :
  read_pdf pdf_path = Return (pdf_bytes, total) ->
  max_attempts self <= 0 ->
  __call__ responses read_pdf self pdf_path pages =
    Some (Failed (AttributeError "'NoneType' object has no attribute 'content'"), []).
Proof.
  intros Hread Hmax. unfold __call__. rewrite Hread.
  by rewrite (analyze_no_attempts _ _ _ Hmax).
Qed.

Lemma format_pages_no_valid (pages : list Z) (total : Z) :
  (forall p, p ∈ pages -> ~ (1 <= p <= total)) -> _format_pages pages total = "".
Proof.
  intros Hnone. unfold _format_pages.
  pose proof (valid_pages_elem_of pages total) as Helem.
  destruct (valid_pages pages total) as [|first_page rest]; [done|].
  destruct (Helem first_page) as [[Hin Hrange] _]; [left|]. by destruct (Hnone _ Hin).
Qed.

(** A request that names only pages that the document does not have is
    sent to the service as a request for all pages, while the metadata of the
    output reports the named pages as the pages analyzed. *)
Theorem out_of_range_request_analyzes_all_pages self (pdf_path pdf_bytes : string)
    (total : Z) (pages : list Z) (result : AnalyzeResult) :
  read_pdf pdf_path = Return (pdf_bytes, total) ->
  0 < max_attempts self ->
  responses 0%nat = inr result ->
  pages <> [] ->
  (forall p, p ∈ pages -> ~ (1 <= p <= total)) ->
  exists output,
    __call__ responses read_pdf self pdf_path pages =
      Some (Done output, [Analyze (model_name self) pdf_bytes ""])
    /\ pages_analyzed (metadata output) = pages.
Proof.
  intros Hread Hmax Hok Hne Hnone. unfold __call__. rewrite Hread.
  rewrite (format_pages_no_valid _ _ Hnone).
  assert (_analyze_document responses self pdf_bytes "" =
            Some (Returned result, [Analyze (model_name self) pdf_bytes ""])) as ->.
  { unfold _analyze_document.
    apply (attempts_first_success self pdf_bytes "" result 0 0 0); [done|lia|lia| |done].
    intros i Hi. lia. }
  eexists. split; [reflexivity|]. cbn. by destruct pages.
Qed.

Lemma analyze_is_bounded_aux self pdf_bytes pages_str :
  exists out trace,
    _analyze_document responses self pdf_bytes pages_str = Some (out, trace)
    /\ Forall (fun ev => ev = Analyze (model_name self) pdf_bytes pages_str \/ ev = Sleep 5)
              trace.
Proof.
  destruct (Z.le_gt_cases (max_attempts self) 0) as [Hle|Hgt].
  - exists ReturnedNone, []. by rewrite (analyze_no_attempts _ _ _ Hle).
  - destruct (attempts_bounded self pdf_bytes pages_str (Z.to_nat (max_attempts self)) 0)
      as (out & trace & Hrun & _ & _ & Hall & _); [lia|lia|].
    by exists out, trace.
Qed.

(** In the output of every call that succeeds, the metadata names the
    requested pages as given (all pages from 1 to the page count for an empty
    request), and every request sent to the service carried the model name,
    the bytes of the file and the formatted valid pages. *)
Lemma call_output_metadata self (pdf_path pdf_bytes : string) (total : Z)
    (pages : list Z) (output : Output) (trace : list event) :
  read_pdf pdf_path = Return (pdf_bytes, total) ->
  __call__ responses read_pdf self pdf_path pages = Some (Done output, trace) ->
  total_pages (metadata output) = total
  /\ pages_analyzed (metadata output) = match pages with [] => seqZ 1 total | _ => pages end
  /\ Forall (fun ev => ev = Analyze (model_name self) pdf_bytes (_format_pages pages total)
                       \/ ev = Sleep 5) trace.
Proof.
  intros Hread. unfold __call__. rewrite Hread.
  destruct (analyze_is_bounded_aux self pdf_bytes (_format_pages pages total))
    as (out & trace' & Hrun & Hall).
  rewrite Hrun. cbn. destruct out as [result| |e]; [|done..].
  intros [= <- <-]. cbn. split; [done|]. split; [|done].
  replace (total + 1 - 1) with total by lia. done.
Qed.

End AnalyzeDocument.

(** ** [LLMFactory]: the registry *)

Section LLMFactory.
Import llm_factory.
Context {I : Type}.

Lemma registry_fold_lookup (cls : llm_class I) (models : list string)
    (registry : gmap string (llm_class I)) (model_name : string) :
  foldl (fun registry model_name => <[model_name := cls]> registry) registry models
    !! model_name
  = if bool_decide (model_name ∈ models) then Some cls else registry !! model_name.
Proof.
  revert registry; induction models as [|m models IH]; intros registry; [done|].
  cbn [foldl]. rewrite IH. destruct (decide (model_name ∈ models)) as [Hin|Hnin].
  - rewrite !bool_decide_true; [done| by right | done].
  - rewrite (bool_decide_false _ Hnin). destruct (decide (model_name = m)) as [->|Hne].
    + rewrite lookup_insert_eq, bool_decide_true; [done | left].
    + rewrite lookup_insert_ne by done. rewrite bool_decide_false; [done|].
      intros [?|?]%elem_of_cons; done.
Qed.

(** After a subclass has been defined, the factory builds each of the
    models that the subclass supports with the constructor of that subclass,
    whichever class had the model before; for every other model it does what
    it did before, which for a model that no class supports is to raise
    [ValueError]. *)
Theorem subclass_registration (cls : llm_class I) (registry : gmap string (llm_class I))
    (model_name : string) (kwargs : list (string * pyval)) :
  create_llm (__init_subclass__ cls registry) model_name kwargs =
    if bool_decide (model_name ∈ supported_models cls)
    then init cls model_name kwargs
    else create_llm registry model_name kwargs.
Proof.
  unfold create_llm, __init_subclass__. rewrite registry_fold_lookup.
  by destruct (bool_decide (model_name ∈ supported_models cls)).
Qed.

End LLMFactory.

(** ** [KVPLLMAgent]: fields and validation *)

Section InformationScheme.
Import KVPLLMAgent.

Lemma dict_get_Some_keys {K V} `{EqDecision K} (d : list (K * V)) (k : K) :
  is_Some (dict_get d k) <-> k ∈ dict_keys d.
Proof.
  unfold dict_keys. induction d as [|[k' v'] d IH]; cbn [dict_get].
  - split; [by intros [? ?] | by intros ?%elem_of_nil].
  - rewrite fmap_cons, elem_of_cons. cbn [fst].
    destruct (decide (k' = k)) as [->|Hne]; [by split; eauto|].
    rewrite IH. split; [by right|]. intros [?|?]; [congruence|done].
Qed.

Lemma values_loop_app (current_dict pre tail : list (pykey * pyval)) :
  Forall (fun kv => isinstance_dict kv.2 = true) pre ->
  values_loop _recursive_extraction current_dict (pre ++ tail) =
    ((pre.*2 ≫= _recursive_extraction)
     ++ values_loop _recursive_extraction current_dict tail)%list.
Proof.
  induction 1 as [|[k v] pre Hv _ IH]; [done|].
  cbn [app values_loop]. simpl in Hv. rewrite Hv, IH.
  rewrite fmap_cons, bind_cons, <- app_assoc. done.
Qed.

(** What counts as a field of an information scheme: a dictionary is a
    field as soon as one of its values is not a dictionary; the dictionaries
    among its values that come before that value are searched for fields
    first, those after it are not looked at; a dictionary whose values are all
    dictionaries (an empty one too) is not a field. *)
Theorem fields_stop_at_first_scalar (pre post : list (pykey * pyval)) (k : pykey)
    (v : pyval) :
  Forall (fun kv => isinstance_dict kv.2 = true) pre ->
  _recursive_extraction (VDict pre) = pre.*2 ≫= _recursive_extraction
  /\ (isinstance_dict v = false ->
      _recursive_extraction (VDict (pre ++ (k, v) :: post)) =
        ((pre.*2 ≫= _recursive_extraction) ++ [pre ++ (k, v) :: post])%list).
Proof.
  intros Hpre. split.
  - cbn [_recursive_extraction].
    rewrite <- (app_nil_r pre) at 2. rewrite (values_loop_app _ _ _ Hpre).
    cbn. by rewrite app_nil_r.
  - intros Hv. cbn [_recursive_extraction]. rewrite (values_loop_app _ _ _ Hpre).
    cbn [values_loop]. by rewrite Hv.
Qed.

Lemma check_attributes_Return (required : list string) (fld_dict : list (pykey * pyval)) :
  check_attributes required fld_dict = Return () <->
  Forall (fun a => KStr a ∈ dict_keys fld_dict) required.
Proof.
  induction required as [|a required IH]; cbn [check_attributes].
  - split; [constructor | done].
  - rewrite Forall_cons, <- dict_get_Some_keys, <- IH.
    destruct (dict_get fld_dict (KStr a)) as [v|].
    + split; [by eauto | by intros [_ ?]].
    + split; [done | by intros [[? ?] _]].
Qed.

Lemma check_fields_Return (required : list string) (fields : list (list (pykey * pyval))) :
  check_fields required fields = Return () <->
  Forall (fun fld => Forall (fun a => KStr a ∈ dict_keys fld) required) fields.
Proof.
  induction fields as [|fld fields IH]; cbn [check_fields].
  - split; [constructor | done].
  - rewrite Forall_cons, <- IH, <- check_attributes_Return.
    destruct (check_attributes required fld) as [[]|e]; cbn.
    + split; [by eauto | by intros [_ ?]].
    + split; [done | by intros [? _]].
Qed.

(** The validation accepts a scheme exactly when every field of it has
    every required attribute among its keys. *)
Theorem validation_accepts_complete_fields (scheme : list (pykey * pyval))
    (required : list string) :
  _validate_information_scheme (VDict scheme) required = Return () <->
  Forall (fun fld => Forall (fun a => KStr a ∈ dict_keys fld) required)
         (_recursive_extraction (VDict scheme)).
Proof.
  unfold _validate_information_scheme, _get_fields_dicts. cbn [isinstance_dict].
  apply check_fields_Return.
Qed.

Lemma check_attributes_first_missing (present rest : list string) (a : string)
    (fld_dict : list (pykey * pyval)) :
  Forall (fun a => KStr a ∈ dict_keys fld_dict) present ->
  KStr a ∉ dict_keys fld_dict ->
  check_attributes (present ++ a :: rest) fld_dict =
    Throw (InvalidDataScheme ("Missing '" +:+ a +:+ "' attribute for one of the fields")).
Proof.
  intros Hpresent Ha. induction Hpresent as [|b present Hb _ IH]; cbn [app check_attributes].
  - destruct (dict_get fld_dict (KStr a)) as [v|] eqn:Hg; [|done].
    destruct Ha. apply dict_get_Some_keys. by rewrite Hg.
  - apply dict_get_Some_keys in Hb as [v ->]. apply IH.
Qed.

(** The validation raises [InvalidDataScheme] for the first field, in the
    order of [_get_fields_dicts], that lacks a required attribute, and the
    message names the first required attribute that this field lacks; the
    message does not say which field it is. *)
Theorem validation_names_first_missing_attribute (scheme : list (pykey * pyval))
    (complete later : list (list (pykey * pyval))) (fld_dict : list (pykey * pyval))
    (present rest : list string) (a : string) :
  _recursive_extraction (VDict scheme) = (complete ++ fld_dict :: later)%list ->
  Forall (fun fld => Forall (fun a => KStr a ∈ dict_keys fld) (present ++ a :: rest)) complete ->
  Forall (fun a => KStr a ∈ dict_keys fld_dict) present ->
  KStr a ∉ dict_keys fld_dict ->
  _validate_information_scheme (VDict scheme) (present ++ a :: rest) =
    Throw (InvalidDataScheme ("Missing '" +:+ a +:+ "' attribute for one of the fields")).
Proof.
  intros Hfields Hcomplete Hpresent Ha.
  unfold _validate_information_scheme, _get_fields_dicts. cbn [isinstance_dict].
  change (mbind ?f (Return ?x)) with (f x). cbn beta. rewrite Hfields. clear Hfields.
  induction Hcomplete as [|fld complete Hfld _ IH]; cbn [app check_fields].
  - by rewrite (check_attributes_first_missing _ _ _ _ Hpresent Ha).
  - apply check_attributes_Return in Hfld. rewrite Hfld. apply IH.
Qed.

End InformationScheme.

(** ** [KVPZeroShotLLMAgent]: the text between the braces *)

Section ResponseDict.
Import KVPZeroShotLLMAgent.

Lemma append_cons (c : ascii) (s t : string) : String c s +:+ t = String c (s +:+ t).
Proof. reflexivity. Qed.

Lemma length_append (s t : string) :
  String.length (s +:+ t) = (String.length s + String.length t)%nat.
Proof. induction s as [|c s IH]; [done|]. rewrite append_cons. simpl. by rewrite IH. Qed.

Lemma substring_skip (a b : string) (m : nat) :
  substring (String.length a) m (a +:+ b) = substring 0 m b.
Proof. induction a as [|c a IH]; [done|]. rewrite append_cons. simpl. apply IH. Qed.

Lemma substring_prefix (b c : string) : substring 0 (String.length b) (b +:+ c) = b.
Proof.
  induction b as [|x b IH]; [by destruct c|]. rewrite append_cons. simpl. by rewrite IH.
Qed.

Lemma first_index_app (c : ascii) (before rest : string) :
  lacks c before = true ->
  first_index c (before +:+ String c rest) = Some (String.length before).
Proof.
  induction before as [|x before IH]; intros Hl.
  - change (first_index c (String c rest) = Some 0%nat). cbn. by rewrite Ascii.eqb_refl.
  - cbn [lacks] in Hl. apply andb_true_iff in Hl as [Hx Hl]. rewrite append_cons.
    cbn [first_index]. apply negb_true_iff in Hx. rewrite Hx, (IH Hl). done.
Qed.

Lemma last_index_lacks (c : ascii) (s : string) : lacks c s = true -> last_index c s = None.
Proof.
  induction s as [|x s IH]; [done|]. cbn [lacks last_index].
  intros [Hx Hl]%andb_true_iff. apply negb_true_iff in Hx. by rewrite (IH Hl), Hx.
Qed.

Lemma last_index_app (c : ascii) (before after : string) :
  lacks c after = true ->
  last_index c (before +:+ String c after) = Some (String.length before).
Proof.
  intros Hl. induction before as [|x before IH].
  - change (last_index c (String c after) = Some 0%nat). cbn [last_index].
    by rewrite (last_index_lacks _ _ Hl), Ascii.eqb_refl.
  - rewrite append_cons. cbn [last_index]. by rewrite IH.
Qed.

(** When the answer of the model has an opening brace and, after it, a
    closing brace, the text that is evaluated runs from the first opening
    brace to the last closing brace, both included: what the model wrote
    before and after is dropped. *)
Theorem response_dict_between_braces (before middle after : string) :
  lacks "{" before = true -> lacks "}" after = true ->
  response_dict (before +:+ "{" +:+ middle +:+ "}" +:+ after) = "{" +:+ middle +:+ "}".
Proof.
  intros Hb Ha.
  change ("{" +:+ middle +:+ "}" +:+ after) with (String "{" (middle +:+ String "}" after)).
  set (response := before +:+ String "{" (middle +:+ String "}" after)).
  assert (first_index "{" response = Some (String.length before)) as Hfind
    by apply (first_index_app _ _ _ Hb).
  assert (response = (before +:+ String "{" middle) +:+ String "}" after) as Hassoc.
  { unfold response. clear. induction before as [|x before IH]; [done|].
    rewrite !append_cons. by rewrite IH. }
  assert (last_index "}" response = Some (String.length before + S (String.length middle))%nat)
    as Hrfind.
  { rewrite Hassoc, (last_index_app _ _ _ Ha), length_append. done. }
  assert (String.length response
          = (String.length before + S (String.length middle) + S (String.length after))%nat)
    as Hlen.
  { rewrite Hassoc, !length_append. cbn [String.length]. lia. }
  unfold response_dict, str_find, str_rfind. rewrite Hfind, Hrfind.
  rewrite py_slice_inside by (unfold len; lia).
  replace (Z.to_nat (Z.of_nat (String.length before + S (String.length middle)) + 1
                     - Z.of_nat (String.length before)))
    with (String.length (String "{" (middle +:+ "}")))
    by (cbn [String.length]; rewrite length_append; cbn [String.length]; lia).
  rewrite Nat2Z.id. unfold response. rewrite substring_skip.
  assert (String "{" (middle +:+ String "}" after)
          = String "{" (middle +:+ "}") +:+ after) as ->.
  { rewrite append_cons. f_equal. clear. induction middle as [|x m IH]; [done|].
    rewrite !append_cons. by rewrite IH. }
  apply substring_prefix.
Qed.

(** Without a closing brace in the answer of the model the text that is
    evaluated is empty, whether the answer has an opening brace or not. *)
Theorem response_dict_without_closing_brace (response : string) :
  lacks "}" response = true -> response_dict response = "".
Proof.
  intros Hl. unfold response_dict, str_rfind. rewrite (last_index_lacks _ _ Hl).
  unfold py_slice. change (-1 + 1) with 0.
  assert (slice_index (len response) 0 = 0) as ->.
  { apply slice_index_inside. pose proof (len_nonneg response). lia. }
  set (lo := slice_index (len response) (str_find "{" response)).
  assert (0 <= lo) as Hlo.
  { unfold lo, slice_index. pose proof (len_nonneg response).
    destruct (Z.ltb_spec (str_find "{" response) 0); lia. }
  replace (Z.to_nat (0 - lo)) with 0%nat by lia.
  generalize (Z.to_nat lo). clear. intros n. revert n.
  induction response as [|c s IH]; intros [|n]; cbn; auto.
Qed.

End ResponseDict.


(** * The further properties at concrete inputs *)

Section MoreInstances.
Import Fixtures MoreFixtures.

Lemma no_exclusion_answers_occurrence_witness :
  @RegexBinaryClassifierAgent.__call__ LiteralRe.re "This is great" (plain "great")
    = (Ok true, plain "great")
  /\ @RegexBinaryClassifierAgent.__call__ LiteralRe.re "This is fine" (plain "great")
     = (Ok false, plain "great").
Proof.
  split.
  - apply (@no_exclusion_answers_occurrence LiteralRe.re (plain "great") "This is great"
             ["great"]); reflexivity.
  - apply (@no_exclusion_answers_occurrence LiteralRe.re (plain "great") "This is fine"
             ["great"]); reflexivity.
Defined.

Lemma whole_text_context_policies_agree_witness :
  @RegexBinaryClassifierAgent.__call__ LiteralRe.re "This is great but also bad"
      great_not_bad_anywhere
    = (Ok false, great_not_bad_anywhere).
Proof.
  apply (@whole_text_context_policies_agree LiteralRe.re great_not_bad_anywhere
           "This is great but also bad" ["great"] ["bad"]).
  - reflexivity.
  - reflexivity.
  - discriminate.
  - reflexivity.
Defined.

Lemma malformed_exclusion_needs_occurrence_witness :
  @RegexBinaryClassifierAgent.__call__ LiteralRe.re "great" (matcher "(" None "any")
    = (Raise re_error, matcher "(" None "any")
  /\ @RegexBinaryClassifierAgent.__call__ LiteralRe.re "fine" (matcher "(" None "any")
     = (Ok false, matcher "(" None "any").
Proof.
  split.
  - apply (@malformed_exclusion_needs_occurrence LiteralRe.re (matcher "(" None "any")
             "great" ["great"] re_error); [reflexivity | discriminate | reflexivity].
  - apply (@malformed_exclusion_needs_occurrence LiteralRe.re (matcher "(" None "any")
             "fine" ["great"] re_error); [reflexivity | discriminate | reflexivity].
Defined.

Lemma any_is_most_permissive_witness :
  (@RegexBinaryClassifierAgent.__call__ LiteralRe.re "bad great xxxxxxx great"
     (great_not_bad "any")).1 = Ok true.
Proof.
  apply (@any_is_most_permissive LiteralRe.re (great_not_bad "last") (great_not_bad "any")
           "bad great xxxxxxx great").
  - reflexivity.
  - reflexivity.
  - reflexivity.
  - reflexivity.
  - vm_compute. reflexivity.
Defined.

Lemma other_policies_behave_as_last_witness :
  (@RegexBinaryClassifierAgent.__call__ LiteralRe.re "bad great xxxxxxx great"
     (great_not_bad "last")).1
  = (@RegexBinaryClassifierAgent.__call__ LiteralRe.re "bad great xxxxxxx great"
       (great_not_bad "newest")).1.
Proof.
  apply (@other_policies_behave_as_last LiteralRe.re (great_not_bad "newest")
           (great_not_bad "last") "bad great xxxxxxx great").
  - reflexivity.
  - reflexivity.
  - reflexivity.
  - discriminate.
  - discriminate.
  - reflexivity.
Defined.

Lemma large_radius_is_unbounded_witness :
  (@RegexBinaryClassifierAgent.__call__ LiteralRe.re "bad great"
     (matcher "bad" None "first")).1
  = (@RegexBinaryClassifierAgent.__call__ LiteralRe.re "bad great"
       (matcher "bad" (Some 100) "first")).1.
Proof.
  apply (@large_radius_is_unbounded LiteralRe.re (matcher "bad" (Some 100) "first")
           (matcher "bad" None "first") "bad great" ["great"] 100).
  - reflexivity.
  - reflexivity.
  - reflexivity.
  - reflexivity.
  - reflexivity.
  - unfold len. simpl. lia.
  - reflexivity.
  - assert (@Pattern_finditer LiteralRe.re ["great"] "bad great" = [(4, 9)]) as ->
      by (vm_compute; reflexivity).
    constructor; [unfold Reference.span_in, len; simpl; lia|].
    constructor.
Defined.

Lemma multilabel_init_builds_each_label_witness :
  Forall2 (fun lk la => la.1 = lk.1 /\ RegexBinaryClassifierAgent.construct lk.2 = Ok la.2)
    sentiment_kwargs
    (RegexMultiLabelClassifierAgent.regex_binary_classifier_per_label sentiment_multilabel).
Proof.
  assert (NoDup (dict_keys sentiment_kwargs)) as Hnd.
  { apply (bool_decide_unpack _). vm_compute. exact I. }
  apply (multilabel_init_builds_each_label sentiment_kwargs sentiment_multilabel Hnd).
  reflexivity.
Defined.

Lemma multilabel_init_first_failure_witness :
  RegexMultiLabelClassifierAgent.__init__
    [("positive", only_patterns (VStr "good"));
     ("broken", only_patterns (VInt 1));
     ("neutral", only_patterns (VStr "ok"))]
  = Raise RegexBinaryClassifierAgent.InvalidPatternType.
Proof.
  apply (multilabel_init_first_failure
           [("positive", only_patterns (VStr "good"))]
           [("neutral", only_patterns (VStr "ok"))]
           "broken" (only_patterns (VInt 1)) RegexBinaryClassifierAgent.InvalidPatternType).
  - constructor; [|constructor]. eexists. vm_compute. reflexivity.
  - reflexivity.
Defined.

Lemma multilabel_call_first_failure_witness :
  @RegexMultiLabelClassifierAgent.__call__ LiteralRe.re "good" broken_multilabel
    = (Raise re_error, broken_multilabel).
Proof.
  apply (@multilabel_call_first_failure LiteralRe.re broken_multilabel "good"
           [("positive", plain "good")] [] "broken" (plain "(") re_error).
  - reflexivity.
  - constructor; [|constructor]. eexists. vm_compute. reflexivity.
  - vm_compute. reflexivity.
Defined.

Lemma default_priorities_follow_configuration_witness :
  @RegexMultiClassClassifierAgent.__call__ LiteralRe.re "great and ok" default_multiclass
    = (Ok (Some "positive"), default_multiclass).
Proof.
  apply (@default_priorities_follow_configuration LiteralRe.re sentiment_kwargs
           default_multiclass "great and ok" ["positive"; "neutral"]).
  - reflexivity.
  - apply (bool_decide_unpack _). vm_compute. exact I.
  - vm_compute. reflexivity.
Defined.

Lemma single_label_ignores_priority_order_witness :
  @RegexMultiClassClassifierAgent.__call__ LiteralRe.re "this is ok" sentiment_multiclass
    = (Ok (Some "neutral"), sentiment_multiclass).
Proof.
  apply (@single_label_ignores_priority_order LiteralRe.re sentiment_multiclass
           "this is ok" "neutral").
  vm_compute. reflexivity.
Defined.

Lemma resolver_returns_configured_priority_label_witness :
  "positive" ∈ RegexMultiClassClassifierAgent.classes_priorities sentiment_multiclass
  /\ "positive" ∈ dict_keys sentiment_kwargs.
Proof.
  apply (@resolver_returns_configured_priority_label LiteralRe.re sentiment_kwargs
           (Some ["negative"; "positive"; "neutral"]) sentiment_multiclass
           "great and ok" "positive").
  - reflexivity.
  - apply (bool_decide_unpack _). vm_compute. exact I.
  - vm_compute. reflexivity.
Defined.

Lemma mapping_results_by_key_witness :
  exists results,
    (MultiInputsAgentExecuter.__call__ MultiInputsAgentExecuter.index_agent [1; 0]%nat
       (VDict two_inputs) []).1 = Ok (VDict results)
    /\ dict_get results (KStr "a") = Some (VInt 7)
    /\ dict_get results (KStr "b") = Some (VInt 8)
    /\ dict_get results (KStr "c") = None.
Proof.
  assert (NoDup (dict_keys two_inputs)) as Hnd.
  { apply (bool_decide_unpack _). vm_compute. exact I. }
  destruct (mapping_results_by_key MultiInputsAgentExecuter.index_agent [1; 0]%nat []
              index_of two_inputs [(KStr "a", VInt 7); (KStr "b", VInt 8)])
    as (results & Hcall & Hin & Hout).
  - reflexivity.
  - exact Hnd.
  - constructor; [|constructor; [|constructor]].
    + split; [reflexivity|]. eexists. split; reflexivity.
    + split; [reflexivity|]. eexists. split; reflexivity.
  - exists results. split; [exact Hcall|].
    destruct (Hin (KStr "a") (VDict [(KStr "index", VInt 7)])) as (kw & r & Hkw & Hr & Hget);
      [unfold two_inputs; rewrite !elem_of_cons; by left|].
    destruct (Hin (KStr "b") (VDict [(KStr "index", VInt 8)]))
      as (kw' & r' & Hkw' & Hr' & Hget');
      [unfold two_inputs; rewrite !elem_of_cons; right; by left|].
    cbn in Hkw, Hkw'. simplify_eq. vm_compute in Hr, Hr'. simplify_eq.
    split; [exact Hget|]. split; [exact Hget'|].
    apply Hout. apply (bool_decide_unpack _). vm_compute. exact I.
Defined.

Lemma first_completed_failure_is_raised_witness :
  (MultiInputsAgentExecuter.__call__ MultiInputsAgentExecuter.index_agent [1; 0]%nat
     (VDict failing_inputs) []).1 = Raise TypeError.
Proof.
  apply (first_completed_failure_is_raised MultiInputsAgentExecuter.index_agent [1; 0]%nat []
           index_of failing_inputs
           [(KStr "a", Ok (VInt 7)); (KStr "b", Raise TypeError)]
           [] [(KStr "a", Ok (VInt 7))] (KStr "b") TypeError).
  - reflexivity.
  - constructor; [|constructor; [|constructor]].
    + split; [reflexivity|]. eexists. split; reflexivity.
    + split; [reflexivity|]. eexists. split; reflexivity.
  - reflexivity.
  - constructor.
Defined.

Lemma every_item_is_submitted_once_witness :
  (MultiInputsAgentExecuter.__call__ MultiInputsAgentExecuter.index_agent [1; 0]%nat
     (VDict two_inputs) []).2
  = [MultiInputsAgentExecuter.Construct [];
     MultiInputsAgentExecuter.Submit (KStr "a") [("index", VInt 7)];
     MultiInputsAgentExecuter.Submit (KStr "b") [("index", VInt 8)]].
Proof.
  apply (every_item_is_submitted_once MultiInputsAgentExecuter.index_agent [1; 0]%nat []
           index_of two_inputs
           [(KStr "a", [("index", VInt 7)]); (KStr "b", [("index", VInt 8)])]).
  - reflexivity.
  - constructor; [|constructor; [|constructor]]; split; reflexivity.
Defined.

Lemma unpack_failure_stops_submission_witness :
  MultiInputsAgentExecuter.__call__ MultiInputsAgentExecuter.index_agent []
    (VDict [(KStr "a", VDict [(KStr "index", VInt 7)]); (KStr "b", VInt 3);
            (KStr "c", VDict [(KStr "index", VInt 9)])]) []
  = (Raise TypeError,
     [MultiInputsAgentExecuter.Construct [];
      MultiInputsAgentExecuter.Submit (KStr "a") [("index", VInt 7)]]).
Proof.
  apply (unpack_failure_stops_submission MultiInputsAgentExecuter.index_agent [] []
           index_of
           [(KStr "a", VDict [(KStr "index", VInt 7)])]
           [(KStr "c", VDict [(KStr "index", VInt 9)])]
           [(KStr "a", [("index", VInt 7)])] (KStr "b") (VInt 3) TypeError).
  - reflexivity.
  - constructor; [|constructor]. split; reflexivity.
  - reflexivity.
Defined.

Lemma format_pages_same_for_same_page_set_witness :
  PDFOCRAgent._format_pages [3; 1; 2; 2; 9] 5 = PDFOCRAgent._format_pages [1; 2; 3] 5.
Proof.
  apply (format_pages_same_for_same_page_set [3; 1; 2; 2; 9] [1; 2; 3] 5).
  intros p Hp. rewrite !elem_of_cons, !elem_of_nil. lia.
Defined.

Lemma analyze_returns_first_success_witness :
  PDFOCRAgent._analyze_document flaky ocr_agent "%PDF" "1"
  = Some (PDFOCRAgent.Returned one_page,
          [PDFOCRAgent.Analyze "prebuilt-document" "%PDF" "1"; PDFOCRAgent.Sleep 5;
           PDFOCRAgent.Analyze "prebuilt-document" "%PDF" "1"; PDFOCRAgent.Sleep 5;
           PDFOCRAgent.Analyze "prebuilt-document" "%PDF" "1"]).
Proof.
  apply (analyze_returns_first_success flaky ocr_agent "%PDF" "1" one_page 2).
  - simpl. lia.
  - intros i Hi. exists "timeout". unfold flaky.
    destruct (Nat.ltb_spec i 2); [reflexivity | lia].
  - reflexivity.
Defined.

Lemma analyze_raises_last_error_witness :
  PDFOCRAgent._analyze_document down ocr_agent "%PDF" "1"
  = Some (PDFOCRAgent.Raised "failure 2",
          [PDFOCRAgent.Analyze "prebuilt-document" "%PDF" "1"; PDFOCRAgent.Sleep 5;
           PDFOCRAgent.Analyze "prebuilt-document" "%PDF" "1"; PDFOCRAgent.Sleep 5;
           PDFOCRAgent.Analyze "prebuilt-document" "%PDF" "1"]).
Proof.
  assert ("failure " +:+ pretty 2%nat = "failure 2") as <- by (vm_compute; reflexivity).
  apply (analyze_raises_last_error down ocr_agent "%PDF" "1"
           (fun i => "failure " +:+ pretty i) 2).
  - reflexivity.
  - intros i Hi. reflexivity.
Defined.

Lemma out_of_range_request_analyzes_all_pages_witness :
  exists output,
    PDFOCRAgent.__call__ up three_pages ocr_agent "doc.pdf" [7]
      = Some (PDFOCRAgent.Done output, [PDFOCRAgent.Analyze "prebuilt-document" "%PDF" ""])
    /\ PDFOCRAgent.pages_analyzed (PDFOCRAgent.metadata output) = [7].
Proof.
  apply (out_of_range_request_analyzes_all_pages up three_pages ocr_agent "doc.pdf" "%PDF"
           3 [7] one_page).
  - reflexivity.
  - simpl. lia.
  - reflexivity.
  - discriminate.
  - intros p Hp. apply list_elem_of_singleton in Hp. lia.
Defined.

Lemma fields_stop_at_first_scalar_witness :
  KVPLLMAgent._recursive_extraction
    (VDict [(KStr "person", VDict [(KStr "name", VStr "n")]); (KStr "note", VStr "x");
            (KStr "place", VDict [(KStr "name", VStr "m")])])
  = [[(KStr "name", VStr "n")];
     [(KStr "person", VDict [(KStr "name", VStr "n")]); (KStr "note", VStr "x");
      (KStr "place", VDict [(KStr "name", VStr "m")])]].
Proof.
  assert (Forall (fun kv : pykey * pyval => isinstance_dict kv.2 = true)
            [(KStr "person", VDict [(KStr "name", VStr "n")])]) as Hpre.
  { constructor; [reflexivity | constructor]. }
  destruct (fields_stop_at_first_scalar
              [(KStr "person", VDict [(KStr "name", VStr "n")])]
              [(KStr "place", VDict [(KStr "name", VStr "m")])]
              (KStr "note") (VStr "x") Hpre) as [_ Hstop].
  apply Hstop. reflexivity.
Defined.

Lemma validation_names_first_missing_attribute_witness :
  KVPLLMAgent._validate_information_scheme (VDict invoice_scheme)
    KVPLLMAgent._get_required_attributes
  = Throw (InvalidDataScheme "Missing 'type' attribute for one of the fields").
Proof.
  apply (validation_names_first_missing_attribute invoice_scheme [] [] invoice_field
           ["name"; "description"] [] "type").
  - reflexivity.
  - constructor.
  - constructor; [|constructor; [|constructor]];
      apply (bool_decide_unpack _); vm_compute; exact I.
  - apply (bool_decide_unpack _). vm_compute. exact I.
Defined.

Lemma response_dict_between_braces_witness :
  KVPZeroShotLLMAgent.response_dict "Sure: {'a': {'b': 1}} done" = "{'a': {'b': 1}}".
Proof.
  apply (response_dict_between_braces "Sure: " "'a': {'b': 1}" " done"); reflexivity.
Defined.

Lemma response_dict_without_closing_brace_witness :
  KVPZeroShotLLMAgent.response_dict "no dict here {" = "".
Proof.
  apply (response_dict_without_closing_brace "no dict here {"). reflexivity.
Defined.

End MoreInstances.
